(** * nest-mediator: the pipeline composition engine

    A shallow embedding of the mediator bus of [nest-mediator]
    (TypeScript, NestJS): the handler maps, the priority-sorted list of
    pipeline behaviors, the pipeline builder and the two dispatch
    methods [send] and [query], together with the validation behavior
    and the decorators that feed the builder.  Around this core: the
    validation exception, the exception-handling behavior, the
    discovery of handlers and behaviors at startup, the bus as it was
    before pipelines, and the caching, retry and audit behaviors and
    the payment handler of the example application.

    Conventions of the embedding.
    - A JavaScript class is a value with an identity; [===] on classes
      is equality of [Class] values.  Two distinct classes may carry the
      same [cname] (the [name] property of the constructor).
    - An [async] method is a computation in the monad [M]: it threads
      the heap and either returns a value or throws (a rejected
      promise).  [await] is [bind]; one dispatch is sequential.
    - [Map<string, T>] is a [gmap string T]; only [has], [get] and [set]
      are used by the code that is modelled here.
    - Priorities are JavaScript numbers; the embedding takes them in
      [Z] (the documented priority bands are integers).
    - The [Logger] calls are output only and are left out. *)

From Stdlib Require Import ZArith Lia.
From stdpp Require Import gmap strings pretty list sorting.


Local Open Scope Z_scope.

(** ** Classes and values *)

(** A class (constructor function): its [name] property and its identity. *)
Record Class : Type := mkClass { cname : string; cid : nat }.

#[global] Instance Class_eq_dec : EqDecision Class.
Proof. solve_decision. Defined.

#[global] Instance Class_countable : Countable Class.
Proof.
  refine (inj_countable' (fun c => (cname c, cid c))
                         (fun p => mkClass p.1 p.2) _).
  intros []; reflexivity.
Defined.

(** JavaScript values, as far as the engine looks at them. *)
#[warnings="-register-all"]
Inductive JsValue : Type :=
| JUndefined
| JNull
| JBool (b : bool)
| JNum (n : Z)
| JStr (s : string)
| JObject (constructor : Class) (props : list (string * JsValue)).

(** A request: an instance of a command or query class
    ([TCommand extends ICommand], [TQuery extends IQuery]). *)
Record Request : Type := mkRequest {
  constructor : Class;
  props : list (string * JsValue)
}.

Definition toValue (r : Request) : JsValue :=
  JObject (constructor r) (props r).

(** ['command' | 'query'] *)
Inductive RequestKind : Type := Command | Query.

(** ['command' | 'query' | 'all'] *)
Inductive BehaviorScope : Type := ScopeCommand | ScopeQuery | ScopeAll.

#[global] Instance RequestKind_eq_dec : EqDecision RequestKind.
Proof. solve_decision. Defined.

#[global] Instance BehaviorScope_eq_dec : EqDecision BehaviorScope.
Proof. solve_decision. Defined.

(** The string of a dispatch scope, seen as a behavior scope. *)
Definition scopeOfKind (k : RequestKind) : BehaviorScope :=
  match k with Command => ScopeCommand | Query => ScopeQuery end.

Definition kindString (k : RequestKind) : string :=
  match k with Command => "command" | Query => "query" end.

(** ** Exceptions *)

(** validation.exception.ts: [interface ValidationError]. *)
#[warnings="-register-all"]
Inductive ValidationError : Type :=
  mkValidationError (property : string) (message : string)
                    (code : option string) (value : option JsValue)
                    (children : option (list ValidationError)).

Definition ve_property (e : ValidationError) : string :=
  match e with mkValidationError p _ _ _ _ => p end.

Definition ve_message (e : ValidationError) : string :=
  match e with mkValidationError _ m _ _ _ => m end.

(** The errors that the modelled code throws.  [Error] is the plain
    JavaScript [Error] with its message, [TypeError] what a call of a
    method that the object does not have raises, and
    [UnknownElementException] what [ModuleRef.get] raises for a class it
    has no provider for. *)
Inductive Exception : Type :=
| Error (message : string)
| TypeError (message : string)
| HandlerNotFoundException (requestName : string) (requestType : RequestKind)
| ValidationException (errors : list ValidationError)
| UnknownElementException (name : string).

(** handler-not-found.exception.ts: the message built by the constructor. *)
Definition HandlerNotFoundException_message
    (requestName : string) (requestType : RequestKind) : string :=
  "No handler registered for " +:+ kindString requestType +:+ ": "
    +:+ requestName +:+ ". Did you forget to add @"
    +:+ (if decide (requestType = Command)
         then "CommandHandler" else "QueryHandler")
    +:+ " decorator?".

(** ** The monad of asynchronous methods *)

Inductive Outcome (A : Type) : Type :=
| Returned (a : A)
| Thrown (e : Exception).
Arguments Returned {A} a.
Arguments Thrown {A} e.

Definition M (St A : Type) : Type := St -> St * Outcome A.

Definition ret {St A} (a : A) : M St A := fun s => (s, Returned a).

Definition throw {St A} (e : Exception) : M St A := fun s => (s, Thrown e).

Definition bind {St A B} (m : M St A) (k : A -> M St B) : M St B :=
  fun s =>
    match m s with
    | (s', Returned a) => k a s'
    | (s', Thrown e) => (s', Thrown e)
    end.

Definition gets {St A} (f : St -> A) : M St A := fun s => (s, Returned (f s)).

Definition modify {St} (f : St -> St) : M St unit :=
  fun s => (f s, Returned tt).

Notation "'let*' x ':=' c1 'in' c2" := (bind c1 (fun x => c2))
  (at level 10, x name, c1 at level 100, c2 at level 200).

(** ** Array.prototype.sort *)

(** [arr.sort(compareFn)] is stable (ECMAScript 2019): with a consistent
    comparator its result is the one sorted arrangement that keeps equal
    elements in their order.  [sortBy] computes it by insertion: an
    element goes in front of the first element it does not compare
    greater than. *)
Section Sort.
Context {A : Type} (compareFn : A -> A -> Z).

Fixpoint insertBy (x : A) (l : list A) : list A :=
  match l with
  | [] => [x]
  | y :: l' =>
      if compareFn x y <=? 0 then x :: y :: l' else y :: insertBy x l'
  end.

Fixpoint sortBy (l : list A) : list A :=
  match l with
  | [] => []
  | x :: l' => insertBy x (sortBy l')
  end.

(** Insertion from the right end: behind every element that does not
    compare greater than [x]. *)
Fixpoint insertLast (x : A) (l : list A) : list A :=
  match l with
  | [] => [x]
  | y :: l' =>
      if compareFn y x <=? 0 then y :: insertLast x l' else x :: y :: l'
  end.
End Sort.

(** ** The mediator bus *)

(** pipeline-behavior.interface.ts: [PipelineBehaviorOptions]. *)
Record PipelineBehaviorOptions : Type := mkOptions {
  priority : option Z;
  scope : option BehaviorScope
}.

(** mediator.bus.ts: [interface RegisteredBehavior]. *)
Record RegisteredBehavior : Type := mkRegistered {
  type : Class;
  options : PipelineBehaviorOptions
}.

#[global] Instance PipelineBehaviorOptions_eq_dec :
  EqDecision PipelineBehaviorOptions.
Proof. solve_decision. Defined.

#[global] Instance RegisteredBehavior_eq_dec : EqDecision RegisteredBehavior.
Proof. solve_decision. Defined.

(** The private fields of [MediatorBus]. *)
Record MediatorBus : Type := mkBus {
  commandHandlers : gmap string Class;
  queryHandlers : gmap string Class;
  pipelineBehaviors : list RegisteredBehavior
}.

(** [new MediatorBus(moduleRef, reflector)] *)
Definition newMediatorBus : MediatorBus :=
  {| commandHandlers := ∅; queryHandlers := ∅; pipelineBehaviors := [] |}.

(** The heap a dispatch runs in: the bus ([this]) and the rest of the
    world, which handlers and behaviors read and write. *)
Record Heap (W : Type) : Type := mkHeap { bus : MediatorBus; world : W }.
Arguments mkHeap {W} bus world.
Arguments bus {W} h.
Arguments world {W} h.

Definition setCommandHandlers {W} (m : gmap string Class) (h : Heap W) : Heap W :=
  mkHeap (mkBus m (queryHandlers (bus h)) (pipelineBehaviors (bus h))) (world h).

Definition setQueryHandlers {W} (m : gmap string Class) (h : Heap W) : Heap W :=
  mkHeap (mkBus (commandHandlers (bus h)) m (pipelineBehaviors (bus h))) (world h).

Definition setPipelineBehaviors {W} (l : list RegisteredBehavior) (h : Heap W)
  : Heap W :=
  mkHeap (mkBus (commandHandlers (bus h)) (queryHandlers (bus h)) l) (world h).

(** [a.options.priority ?? 0] *)
Definition priorityOf (b : RegisteredBehavior) : Z :=
  default 0 (priority (options b)).

(** [(a, b) => (a.options.priority ?? 0) - (b.options.priority ?? 0)] *)
Definition comparePriority (a b : RegisteredBehavior) : Z :=
  priorityOf a - priorityOf b.

Section Registration.
Context {W : Type}.

(** [registerCommandHandler(command, handler)] *)
Definition registerCommandHandler (command handler : Class)
  : M (Heap W) unit :=
  let commandName := cname command in
  let* handlers := gets (fun h => commandHandlers (bus h)) in
  if decide (is_Some (handlers !! commandName)) then
    throw (Error ("Command handler for " +:+ commandName
                    +:+ " is already registered"))
  else
    modify (setCommandHandlers (<[commandName := handler]> handlers)).

(** [registerQueryHandler(query, handler)] *)
Definition registerQueryHandler (query handler : Class)
  : M (Heap W) unit :=
  let queryName := cname query in
  let* handlers := gets (fun h => queryHandlers (bus h)) in
  if decide (is_Some (handlers !! queryName)) then
    throw (Error ("Query handler for " +:+ queryName
                    +:+ " is already registered"))
  else
    modify (setQueryHandlers (<[queryName := handler]> handlers)).

(** [registerPipelineBehavior(behaviorType, options)]: [push], then
    [sort] by priority. *)
Definition registerPipelineBehavior
    (behaviorType : Class) (options_ : PipelineBehaviorOptions)
  : M (Heap W) unit :=
  let* behaviors := gets (fun h => pipelineBehaviors (bus h)) in
  let pushed := behaviors ++ [mkRegistered behaviorType options_] in
  modify (setPipelineBehaviors (sortBy comparePriority pushed)).
End Registration.

(** ** Collaborators: the DI container and the metadata reflector *)

Section Dispatch.
Context {W : Type}.

(** An object obtained from the container: a handler, with its
    [execute(request)], or a behavior, with its [handle(request, next)]. *)
Inductive Instance : Type :=
| Handler (execute : Request -> M (Heap W) JsValue)
| Behavior (handle : Request -> M (Heap W) JsValue -> M (Heap W) JsValue).

(** [handler.execute(request)] *)
Definition execute (handler : Instance) (request : Request)
  : M (Heap W) JsValue :=
  match handler with
  | Handler f => f request
  | Behavior _ => throw (TypeError "handler.execute is not a function")
  end.

(** [behavior.handle(request, next)] *)
Definition handle (behavior : Instance) (request : Request)
    (next : M (Heap W) JsValue) : M (Heap W) JsValue :=
  match behavior with
  | Behavior f => f request next
  | Handler _ => throw (TypeError "behavior.handle is not a function")
  end.

(** What the bus is constructed with: [moduleRef.get(type, { strict:
    false })] and the metadata that [reflector.get] reads under the key
    [SKIP_BEHAVIORS_METADATA]. *)
Record Env : Type := mkEnv {
  moduleRef : Class -> option Instance;
  skipMetadata : gmap Class (list Class)
}.

Variable env : Env.

(** [this.moduleRef.get(type, { strict: false })] *)
Definition moduleRef_get (c : Class) : M (Heap W) Instance :=
  match moduleRef env c with
  | Some inst => ret inst
  | None => throw (UnknownElementException (cname c))
  end.

(** [this.reflector.get(SKIP_BEHAVIORS_METADATA, requestClass) ?? []] *)
Definition behaviorsToSkip (request : Request) : list Class :=
  let requestClass := constructor request in
  default [] (skipMetadata env !! requestClass).

(** The predicate of [this.pipelineBehaviors.filter(...)]. *)
Definition isApplicable (request : Request) (scope_ : RequestKind)
    (b : RegisteredBehavior) : bool :=
  let behaviorScope := default ScopeAll (scope (options b)) in
  let scopeMatches :=
    bool_decide (behaviorScope = ScopeAll)
    || bool_decide (behaviorScope = scopeOfKind scope_) in
  let shouldSkip :=
    existsb (fun skipType => bool_decide (skipType = type b))
            (behaviorsToSkip request) in
  scopeMatches && negb shouldSkip.

Definition applicableBehaviors (this : MediatorBus) (request : Request)
    (scope_ : RequestKind) : list RegisteredBehavior :=
  List.filter (isApplicable request scope_) (pipelineBehaviors this).

(** The closure that [reduceRight] builds around [next] for one
    registered behavior. *)
Definition invokeBehavior (request : Request)
    (registeredBehavior : RegisteredBehavior)
    (next : M (Heap W) JsValue) : M (Heap W) JsValue :=
  let* behavior := moduleRef_get (type registeredBehavior) in
  handle behavior request next.

(** [buildPipeline(request, scope, handler)]: reads the behaviors of
    the bus as they are when it is called and returns the chain. *)
Definition buildPipeline (request : Request) (scope_ : RequestKind)
    (handler : M (Heap W) JsValue) : M (Heap W) (M (Heap W) JsValue) :=
  let* this := gets bus in
  let applicable := applicableBehaviors this request scope_ in
  if (length applicable =? 0)%nat then ret handler
  else ret (fold_right (invokeBehavior request) handler applicable).

(** [send(command)] *)
Definition send (command : Request) : M (Heap W) unit :=
  let commandName := cname (constructor command) in
  let* handlers := gets (fun h => commandHandlers (bus h)) in
  match handlers !! commandName with
  | None => throw (HandlerNotFoundException commandName Command)
  | Some handlerType =>
      let* handler := moduleRef_get handlerType in
      let* pipeline :=
        buildPipeline command Command (execute handler command) in
      let* _ := pipeline in
      ret tt
  end.

(** [query(query)] *)
Definition query (q : Request) : M (Heap W) JsValue :=
  let queryName := cname (constructor q) in
  let* handlers := gets (fun h => queryHandlers (bus h)) in
  match handlers !! queryName with
  | None => throw (HandlerNotFoundException queryName Query)
  | Some handlerType =>
      let* handler := moduleRef_get handlerType in
      let* pipeline := buildPipeline q Query (execute handler q) in
      pipeline
  end.
End Dispatch.

Arguments Instance W : clear implicits.
Arguments Env W : clear implicits.
Arguments Handler {W} execute.
Arguments Behavior {W} handle.

(** ** Decorators *)

(** skip-behavior.decorator.ts: [@SkipBehavior(behavior)] applied to the
    class [target]; [SetMetadata] stores the array under
    [SKIP_BEHAVIORS_METADATA]. *)
Definition SkipBehavior (behavior : Class + list Class) (target : Class)
    (metadata : gmap Class (list Class)) : gmap Class (list Class) :=
  let behaviors :=
    match behavior with inl b => [b] | inr bs => bs end in
  <[target := behaviors]> metadata.

(** [@SkipBehaviors(behaviors)] applied to the class [target]. *)
Definition SkipBehaviors (behaviors : list Class) (target : Class)
    (metadata : gmap Class (list Class)) : gmap Class (list Class) :=
  <[target := behaviors]> metadata.

(** pipeline-behavior.decorator.ts: what [@Handle()] leaves on a behavior
    class.  The decorator sets [PIPELINE_BEHAVIOR_HANDLE_METADATA] on the
    method, and its presence makes the compiler emit the parameter types
    of [handle] as [design:paramtypes]. *)
Record HandleMetadata : Type := mkHandleMetadata {
  handleDecorated : gset Class;
  designParamtypes : gmap Class (list Class)
}.

(** [@Handle()] on the [handle] method of [target], whose parameters
    have the types [paramtypes]. *)
Definition Handle (target : Class) (paramtypes : list Class)
    (metadata : HandleMetadata) : HandleMetadata :=
  {| handleDecorated := {[target]} ∪ handleDecorated metadata;
     designParamtypes := <[target := paramtypes]> (designParamtypes metadata) |}.

(** The request type that a behavior declares through [@Handle()]: the
    type of the first parameter of its [handle]. *)
Definition declaredTargetType (metadata : HandleMetadata)
    (behaviorType : Class) : option Class :=
  if decide (behaviorType ∈ handleDecorated metadata)
  then designParamtypes metadata !! behaviorType ≫= head
  else None.

(** ** Startup: a sequence of registration calls *)

Inductive Registration : Type :=
| RegisterCommandHandler (command handler : Class)
| RegisterQueryHandler (query handler : Class)
| RegisterPipelineBehavior (behaviorType : Class)
                           (options_ : PipelineBehaviorOptions).

Definition register {W} (r : Registration) : M (Heap W) unit :=
  match r with
  | RegisterCommandHandler c h => registerCommandHandler c h
  | RegisterQueryHandler q h => registerQueryHandler q h
  | RegisterPipelineBehavior b o => registerPipelineBehavior b o
  end.

(** The heap after the calls [rs], made one after the other; a call that
    throws is over and the next one is made. *)
Fixpoint startup {W} (rs : list Registration) (h : Heap W) : Heap W :=
  match rs with
  | [] => h
  | r :: rs' => startup rs' (register r h).1
  end.

(** The behaviors among the calls [rs], in the order of the calls. *)
Fixpoint registeredBehaviors (rs : list Registration)
  : list RegisteredBehavior :=
  match rs with
  | [] => []
  | RegisterPipelineBehavior b o :: rs' =>
      mkRegistered b o :: registeredBehaviors rs'
  | _ :: rs' => registeredBehaviors rs'
  end.

(** ** The validation behavior (validation.behavior.ts) *)

Module ValidationBehavior.

(** An error object of class-validator: [property], [value],
    [constraints] (an object from constraint name to message) and
    [children]. *)
#[warnings="-register-all"]
Inductive ClassValidatorError : Type :=
  mkClassValidatorError (property : string) (value : JsValue)
                        (constraints : option (list (string * string)))
                        (children : option (list ClassValidatorError)).

(** [getMetadataStorage()] of class-validator; a call may throw. *)
Record MetadataStorage : Type := mkMetadataStorage {
  getTargetValidationMetadatas :
    Class -> string -> bool -> bool -> Outcome (option (list JsValue))
}.

(** The exports of the module ['class-validator'] that the behavior
    picks up. *)
Record ClassValidatorModule : Type := mkClassValidatorModule {
  validate : option (Request -> Outcome (list ClassValidatorError));
  getMetadataStorage : option (unit -> Outcome MetadataStorage)
}.

(** The private fields of a [ValidationBehavior] object. *)
Record Fields : Type := mkFields {
  classValidatorAvailable : option bool;
  validateFn : option (Request -> Outcome (list ClassValidatorError));
  getMetadataStorageFn : option (unit -> Outcome MetadataStorage)
}.

Definition newValidationBehavior : Fields :=
  {| classValidatorAvailable := None;
     validateFn := None;
     getMetadataStorageFn := None |}.

(** [{ ...childError, property }] *)
Definition withProperty (p : string) (e : ValidationError)
  : ValidationError :=
  match e with
  | mkValidationError _ m c v ch => mkValidationError p m c v ch
  end.

(** [transformClassValidatorErrors(errors)]: one loop iteration is
    [transformClassValidatorError]. *)
Fixpoint transformClassValidatorError (error : ClassValidatorError)
  : list ValidationError :=
  match error with
  | mkClassValidatorError property value constraints children =>
      (match constraints with
       | Some cs =>
           map (fun c => mkValidationError property c.2 None (Some value) None)
               cs
       | None => []
       end)
      ++
      (match children with
       | Some ch =>
           if (0 <? length ch)%nat then
             map (fun childError =>
                    withProperty (property +:+ "." +:+ ve_property childError)
                                 childError)
                 (flat_map transformClassValidatorError ch)
           else []
       | None => []
       end)
  end.

Definition transformClassValidatorErrors (errors : list ClassValidatorError)
  : list ValidationError :=
  flat_map transformClassValidatorError errors.

Definition bindOutcome {A B} (o : Outcome A) (k : A -> Outcome B)
  : Outcome B :=
  match o with
  | Returned a => k a
  | Thrown e => Thrown e
  end.

Section Methods.
(** The result of [import('class-validator')]: the module, or [None]
    when the import fails. *)
Variable importClassValidator : option ClassValidatorModule.

(** [loadClassValidator()] *)
Definition loadClassValidator (this : Fields) : Fields :=
  match classValidatorAvailable this with
  | Some _ => this
  | None =>
      match importClassValidator with
      | Some classValidator =>
          {| classValidatorAvailable := Some true;
             validateFn := validate classValidator;
             getMetadataStorageFn := getMetadataStorage classValidator |}
      | None =>
          {| classValidatorAvailable := Some false;
             validateFn := None;
             getMetadataStorageFn := None |}
      end
  end.

(** [validateRequest(request)]: the fields afterwards and the
    errors.  The [try] block turns every throw into no errors. *)
Definition validateRequest (this : Fields) (request : Request)
  : Fields * list ValidationError :=
  let this' := loadClassValidator this in
  match validateFn this', getMetadataStorageFn this' with
  | Some validateFn', Some getMetadataStorageFn' =>
      let tried :=
        bindOutcome (getMetadataStorageFn' tt) (fun metadataStorage =>
        let targetConstructor := constructor request in
        bindOutcome
          (getTargetValidationMetadatas metadataStorage
             targetConstructor (cname targetConstructor) true false)
          (fun found =>
        let targetMetadatas := default [] found in
        if (length targetMetadatas =? 0)%nat then Returned []
        else
          bindOutcome (validateFn' request) (fun classValidatorErrors =>
          Returned (transformClassValidatorErrors classValidatorErrors))))
      in
      (this', match tried with Returned errors => errors | Thrown _ => [] end)
  | _, _ => (this', [])
  end.

(** [handle(request, next)], as a method of the object that
    [getThis] finds in the heap. *)
Context {St : Type} (getThis : St -> Fields) (setThis : Fields -> St -> St).

Definition handle (request : JsValue) (next : M St JsValue)
  : M St JsValue :=
  match request with
  | JObject c ps =>
      let* errors :=
        (fun s =>
           let r := validateRequest (getThis s) (mkRequest c ps) in
           (setThis r.1 s, Returned r.2)) in
      if (0 <? length errors)%nat
      then throw (ValidationException errors)
      else next
  | _ => next
  end.
End Methods.

End ValidationBehavior.

(** ** Behaviors and handlers that write to a shared trace log *)

Inductive Event : Type :=
| Enter (c : Class)
| Exit (c : Class)
| HandlerReturns (v : JsValue).

(** The heap with the events [evs] appended to the log. *)
Definition logged (evs : list Event) (h : Heap (list Event))
  : Heap (list Event) :=
  mkHeap (bus h) (world h ++ evs).

Definition logEvent (e : Event) : M (Heap (list Event)) unit :=
  modify (logged [e]).

(** [async handle(request, next) { log(enter); const r = await next();
    log(exit); return r; }] *)
Definition tracingHandle (c : Class) (request : Request)
    (next : M (Heap (list Event)) JsValue) : M (Heap (list Event)) JsValue :=
  let* _ := logEvent (Enter c) in
  let* response := next in
  let* _ := logEvent (Exit c) in
  ret response.

(** [async execute(request) { log(returns v); return v; }] *)
Definition tracingExecute (v : JsValue) (request : Request)
  : M (Heap (list Event)) JsValue :=
  let* _ := logEvent (HandlerReturns v) in
  ret v.

(** The container in which every class in [behaviors] is a tracing
    behavior and every class in [handlers] a handler returning its value. *)
Definition tracingModuleRef (behaviors : list Class)
    (handlers : list (Class * JsValue)) (c : Class)
  : option (Instance (list Event)) :=
  match List.find (fun p => bool_decide (p.1 = c)) handlers with
  | Some p => Some (Handler (tracingExecute p.2))
  | None =>
      if bool_decide (c ∈ behaviors)
      then Some (Behavior (tracingHandle c))
      else None
  end.

(** ** The scenario of three behaviors around a query *)

Module Scenario.
Definition A : Class := mkClass "A" 1.
Definition B : Class := mkClass "B" 2.
Definition C : Class := mkClass "C" 3.
Definition Q : Class := mkClass "Q" 4.
Definition QHandler : Class := mkClass "QHandler" 5.

Definition allAt (p : Z) : PipelineBehaviorOptions :=
  {| priority := Some p; scope := Some ScopeAll |}.

Definition registrations : list Registration :=
  [ RegisterQueryHandler Q QHandler;
    RegisterPipelineBehavior A (allAt (-100));
    RegisterPipelineBehavior B (allAt 0);
    RegisterPipelineBehavior C (allAt 100) ].

(** The same components, discovered in another order. *)
Definition registrations' : list Registration :=
  [ RegisterPipelineBehavior C (allAt 100);
    RegisterPipelineBehavior B (allAt 0);
    RegisterQueryHandler Q QHandler;
    RegisterPipelineBehavior A (allAt (-100)) ].

Definition env : Env (list Event) :=
  {| moduleRef := tracingModuleRef [A; B; C] [(QHandler, JNum 42)];
     skipMetadata := ∅ |}.

Definition started : Heap (list Event) :=
  startup registrations (mkHeap newMediatorBus []).

Definition started' : Heap (list Event) :=
  startup registrations' (mkHeap newMediatorBus []).

(** The same container when the class [Q] is declared as
    [@SkipBehavior(B) class Q]. *)
Definition skippingEnv : Env (list Event) :=
  {| moduleRef := moduleRef env;
     skipMetadata := SkipBehavior (inl B) Q ∅ |}.

(** A behavior for queries only and a behavior for commands only. *)
Definition queryOnly : RegisteredBehavior :=
  {| type := A; options := {| priority := None; scope := Some ScopeQuery |} |}.

Definition commandOnly : RegisteredBehavior :=
  {| type := B; options := {| priority := None; scope := Some ScopeCommand |} |}.
End Scenario.

(** ** A behavior written for one request type (the example application) *)

Module TypeTargeted.
Definition Function : Class := mkClass "Function" 0.
Definition CreateUserCommand : Class := mkClass "CreateUserCommand" 10.
Definition DeleteUserCommand : Class := mkClass "DeleteUserCommand" 11.
Definition DeleteUserHandler : Class := mkClass "DeleteUserHandler" 12.
Definition CreateUserValidationBehavior : Class :=
  mkClass "CreateUserValidationBehavior" 13.

(** [@Handle() async handle(request: CreateUserCommand, next: () =>
    Promise<void>)] *)
Definition handleMetadata : HandleMetadata :=
  Handle CreateUserValidationBehavior [CreateUserCommand; Function]
         {| handleDecorated := ∅; designParamtypes := ∅ |}.

(** [@PipelineBehavior({ priority: 95, scope: 'command' })] *)
Definition registrations : list Registration :=
  [ RegisterCommandHandler DeleteUserCommand DeleteUserHandler;
    RegisterPipelineBehavior CreateUserValidationBehavior
      {| priority := Some 95; scope := Some ScopeCommand |} ].

Definition env : Env (list Event) :=
  {| moduleRef :=
       tracingModuleRef [CreateUserValidationBehavior]
                        [(DeleteUserHandler, JUndefined)];
     skipMetadata := ∅ |}.

Definition started : Heap (list Event) :=
  startup registrations (mkHeap newMediatorBus []).

(** [new DeleteUserCommand('123')] *)
Definition deleteUser : Request :=
  mkRequest DeleteUserCommand [("id", JStr "123")].
End TypeTargeted.

(** ** Two request classes with one name *)

Module NameCollision.
(** [class CreateOrder] of a billing module and [class CreateOrder] of
    a shipping module. *)
Definition BillingCreateOrder : Class := mkClass "CreateOrder" 20.
Definition ShippingCreateOrder : Class := mkClass "CreateOrder" 21.
Definition BillingHandler : Class := mkClass "BillingCreateOrderHandler" 22.
Definition ShippingHandler : Class := mkClass "ShippingCreateOrderHandler" 23.

Definition env : Env (list Event) :=
  {| moduleRef :=
       tracingModuleRef []
         [(BillingHandler, JStr "billing"); (ShippingHandler, JStr "shipping")];
     skipMetadata := ∅ |}.

(** The heap after [registerCommandHandler(BillingCreateOrder,
    BillingHandler)] on a new bus. *)
Definition started : Heap (list Event) :=
  startup [RegisterCommandHandler BillingCreateOrder BillingHandler]
          (mkHeap newMediatorBus []).
End NameCollision.

(** ** A command validated with class-validator *)

Module ValidationExample.
Import ValidationBehavior.

Definition CreateUserCommand : Class := mkClass "CreateUserCommand" 10.

(** class-validator with decorators on [CreateUserCommand] only; its
    [validate] reports a bad [email] and, nested under [profile], a
    bad [name]. *)
Definition classValidator : ClassValidatorModule :=
  {| validate := Some (fun _ =>
       Returned
         [ mkClassValidatorError "email" (JStr "invalid")
             (Some [("isEmail", "email must be an email")]) None;
           mkClassValidatorError "profile" JNull None
             (Some [ mkClassValidatorError "name" (JStr "a")
                       (Some [("minLength", "name is too short")]) None ]) ]);
     getMetadataStorage := Some (fun _ =>
       Returned
         {| getTargetValidationMetadatas := fun c _ _ _ =>
              Returned
                (Some (if decide (c = CreateUserCommand)
                       then [JStr "isEmail"; JStr "minLength"] else [])) |}) |}.

(** The heap: the behavior object and the number of calls of the
    continuation [countingNext]. *)
Definition getThis (s : Fields * nat) : Fields := s.1.
Definition setThis (f : Fields) (s : Fields * nat) : Fields * nat := (f, s.2).

Definition countingNext : M (Fields * nat) JsValue :=
  fun s => ((s.1, S s.2), Returned (JStr "handled")).

Definition badCommand : JsValue :=
  JObject CreateUserCommand [("email", JStr "invalid")].

(** The fields once the module has been imported. *)
Definition loaded : Fields :=
  {| classValidatorAvailable := Some true;
     validateFn := validate classValidator;
     getMetadataStorageFn := getMetadataStorage classValidator |}.
End ValidationExample.

(** ** Orders on registered behaviors *)

Definition priorityLe (a b : RegisteredBehavior) : Prop :=
  priorityOf a <= priorityOf b.

(** The behaviors of [l] with priority [p], in the order of [l]. *)
Definition withPriority (p : Z) (l : list RegisteredBehavior)
  : list RegisteredBehavior :=
  List.filter (fun b => priorityOf b =? p) l.



(** The container of [env] with the provider of the class [c] replaced
    by [inst] (or removed). *)
Definition replaceInstance {W} (c : Class) (inst : option (Instance W))
    (env : Env W) : Env W :=
  {| moduleRef := fun c' => if decide (c' = c) then inst else moduleRef env c';
     skipMetadata := skipMetadata env |}.

(** ** Introspection and the history of the handler maps *)

(** [getRegisteredBehaviors()] *)
Definition getRegisteredBehaviors (this : MediatorBus) : list string :=
  map (fun b => cname (type b)) (pipelineBehaviors this).

(** The handler of the first call, among [rs], that registers a command
    handler for a class of the name [n]. *)
Fixpoint firstCommandHandler (rs : list Registration) (n : string)
  : option Class :=
  match rs with
  | [] => None
  | RegisterCommandHandler c handler :: rs' =>
      if decide (cname c = n) then Some handler else firstCommandHandler rs' n
  | _ :: rs' => firstCommandHandler rs' n
  end.

(** The same for query handlers. *)
Fixpoint firstQueryHandler (rs : list Registration) (n : string)
  : option Class :=
  match rs with
  | [] => None
  | RegisterQueryHandler c handler :: rs' =>
      if decide (cname c = n) then Some handler else firstQueryHandler rs' n
  | _ :: rs' => firstQueryHandler rs' n
  end.

(** ** The scenario with a handler that throws *)

Module FailingScenario.
(** [async execute(request) { throw new Error('boom'); }] *)
Definition throwingExecute (request : Request)
  : M (Heap (list Event)) JsValue :=
  throw (Error "boom").

(** The container of the scenario with the throwing handler for [Q]. *)
Definition env : Env (list Event) :=
  {| moduleRef := fun c =>
       if decide (c = Scenario.QHandler)
       then Some (Handler throwingExecute)
       else moduleRef Scenario.env c;
     skipMetadata := ∅ |}.
End FailingScenario.

(** ** The exception-handling behavior (exception-handling.behavior.ts) *)

Module ExceptionHandlingBehavior.

(** [interface IExceptionHandler]: [canHandle(error)] and
    [handle(error, request)], here [handleError]; the latter returns the
    error to throw, or throws itself.  The handlers are taken not to
    write to the heap. *)
Record IExceptionHandler : Type := mkExceptionHandler {
  canHandle : Exception -> bool;
  handleError : Exception -> JsValue -> Outcome Exception
}.

(** The private field [exceptionHandlers]. *)
Record Fields : Type := mkFields {
  exceptionHandlers : list IExceptionHandler
}.

Definition newExceptionHandlingBehavior : Fields :=
  {| exceptionHandlers := [] |}.

(** [registerExceptionHandler(handler)] *)
Definition registerExceptionHandler (handler : IExceptionHandler)
    (this : Fields) : Fields :=
  {| exceptionHandlers := exceptionHandlers this ++ [handler] |}.

(** The loop of [processException] over the handlers that are left. *)
Fixpoint tryHandlers (handlers : list IExceptionHandler) (error : Exception)
    (request : JsValue) : Outcome Exception :=
  match handlers with
  | [] => Returned error
  | handler :: handlers' =>
      if canHandle handler error then handleError handler error request
      else tryHandlers handlers' error request
  end.

(** [processException(error, request)] *)
Definition processException (this : Fields) (error : Exception)
    (request : JsValue) : Outcome Exception :=
  tryHandlers (exceptionHandlers this) error request.

(** [handle(request, next)]: [try { return await next(); } catch (error)
    { throw await this.processException(error, request); }] *)
Definition handle {St : Type} (getThis : St -> Fields) (request : JsValue)
    (next : M St JsValue) : M St JsValue :=
  fun s =>
    match next s with
    | (s', Returned response) => (s', Returned response)
    | (s', Thrown error) =>
        match processException (getThis s') error request with
        | Returned processedError => (s', Thrown processedError)
        | Thrown thrown => (s', Thrown thrown)
        end
    end.

End ExceptionHandlingBehavior.

(** ** Exception handlers of an application *)

Module ExceptionExample.
Import ExceptionHandlingBehavior.

(** Turns a missing handler into a plain error. *)
Definition notFoundHandler : IExceptionHandler :=
  {| canHandle := fun e =>
       match e with HandlerNotFoundException _ _ => true | _ => false end;
     handleError := fun _ _ => Returned (Error "no such request") |}.

(** Takes every error and replaces it. *)
Definition catchAllHandler : IExceptionHandler :=
  {| canHandle := fun _ => true;
     handleError := fun _ _ => Returned (Error "internal error") |}.

Definition behavior : Fields :=
  registerExceptionHandler catchAllHandler
    (registerExceptionHandler notFoundHandler newExceptionHandlingBehavior).

(** A continuation that throws [e] and leaves the heap as it is. *)
Definition failingNext (e : Exception) : M Fields JsValue := throw e.
End ExceptionExample.

(** ** The validation exception (validation.exception.ts) *)

Definition ve_code (e : ValidationError) : option string :=
  match e with mkValidationError _ _ c _ _ => c end.

Definition ve_value (e : ValidationError) : option JsValue :=
  match e with mkValidationError _ _ _ v _ => v end.

Definition ve_children (e : ValidationError) : option (list ValidationError) :=
  match e with mkValidationError _ _ _ _ ch => ch end.

(** [ValidationException.formatMessage(errors)] *)
Definition formatMessage (errors : list ValidationError) : string :=
  match errors with
  | [] => "Validation failed"
  | [e] => "Validation failed: " +:+ ve_property e +:+ " - " +:+ ve_message e
  | _ =>
      let errorMessages :=
        String.concat "; "
          (map (fun e => ve_property e +:+ ": " +:+ ve_message e) errors) in
      "Validation failed with " +:+ pretty (length errors) +:+ " errors: "
        +:+ errorMessages
  end.

(** [getErrorsForProperty(property)] of an exception with [errors]. *)
Definition getErrorsForProperty (errors : list ValidationError)
    (property : string) : list ValidationError :=
  List.filter (fun e => bool_decide (ve_property e = property)) errors.

(** [hasErrorForProperty(property)] of an exception with [errors]. *)
Definition hasErrorForProperty (errors : list ValidationError)
    (property : string) : bool :=
  existsb (fun e => bool_decide (ve_property e = property)) errors.

(** ** Counting the messages of class-validator errors *)

(** The number of constraint messages of an error and of the errors
    nested in it. *)
Fixpoint messageCount (error : ValidationBehavior.ClassValidatorError) : nat :=
  match error with
  | ValidationBehavior.mkClassValidatorError _ _ constraints children =>
      (match constraints with Some cs => length cs | None => 0 end
       + match children with
         | Some ch => list_sum (map messageCount ch)
         | None => 0
         end)%nat
  end.

Definition cve_property (error : ValidationBehavior.ClassValidatorError)
  : string :=
  match error with
  | ValidationBehavior.mkClassValidatorError p _ _ _ => p
  end.

(** ** The bus before pipeline behaviors (the earlier mediator.bus.ts) *)

Module Legacy.
Section Dispatch.
Context {W : Type} (env : Env W).

(** [send(command)] of the earlier bus: the handler is called directly,
    and a missing handler is reported with a plain [Error]. *)
Definition send (command : Request) : M (Heap W) unit :=
  let commandName := cname (constructor command) in
  let* handlers := gets (fun h => commandHandlers (bus h)) in
  match handlers !! commandName with
  | None =>
      throw (Error ("No handler registered for command: " +:+ commandName
                      +:+ ". Did you forget to add @CommandHandler decorator?"))
  | Some handlerType =>
      let* handler := moduleRef_get env handlerType in
      let* _ := execute handler command in
      ret tt
  end.

(** [query(query)] of the earlier bus. *)
Definition query (q : Request) : M (Heap W) JsValue :=
  let queryName := cname (constructor q) in
  let* handlers := gets (fun h => queryHandlers (bus h)) in
  match handlers !! queryName with
  | None =>
      throw (Error ("No handler registered for query: " +:+ queryName
                      +:+ ". Did you forget to add @QueryHandler decorator?"))
  | Some handlerType =>
      let* handler := moduleRef_get env handlerType in
      execute handler q
  end.
End Dispatch.
End Legacy.

(** ** Discovery at startup (nest-mediator.module.ts) *)

Module NestMediatorModule.

(** What [wrapper.metatype] can be: a class, or a value that is not a
    constructor (no [prototype], or not a function). *)
Inductive Metatype : Type :=
| ClassType (c : Class)
| NotConstructor.

(** A provider of the discovery service: [metatype] and whether
    [instance] is there. *)
Record InstanceWrapper : Type := mkWrapper {
  metatype : option Metatype;
  instance : bool
}.

(** The metadata that the three class decorators leave, by class.  The
    classes are taken without inheritance: metadata is found on the
    class that was decorated only. *)
Record Metadata : Type := mkMetadata {
  commandHandlerMetadata : gmap Class Class;
  queryHandlerMetadata : gmap Class Class;
  pipelineBehaviorMetadata : gmap Class PipelineBehaviorOptions
}.

Definition noMetadata : Metadata :=
  {| commandHandlerMetadata := ∅;
     queryHandlerMetadata := ∅;
     pipelineBehaviorMetadata := ∅ |}.

(** [@CommandHandler(command)] on the class [target]. *)
Definition CommandHandler (command : Class) (target : Class)
    (metadata : Metadata) : Metadata :=
  {| commandHandlerMetadata :=
       <[target := command]> (commandHandlerMetadata metadata);
     queryHandlerMetadata := queryHandlerMetadata metadata;
     pipelineBehaviorMetadata := pipelineBehaviorMetadata metadata |}.

(** [@QueryHandler(query)] on the class [target]. *)
Definition QueryHandler (query : Class) (target : Class)
    (metadata : Metadata) : Metadata :=
  {| commandHandlerMetadata := commandHandlerMetadata metadata;
     queryHandlerMetadata :=
       <[target := query]> (queryHandlerMetadata metadata);
     pipelineBehaviorMetadata := pipelineBehaviorMetadata metadata |}.

(** [DEFAULT_OPTIONS] *)
Definition DEFAULT_OPTIONS : PipelineBehaviorOptions :=
  {| priority := Some 0; scope := Some ScopeAll |}.

(** [{ ...DEFAULT_OPTIONS, ...options }]; a field [None] of [options]
    is a key that the object does not have. *)
Definition mergeOptions (options : option PipelineBehaviorOptions)
  : PipelineBehaviorOptions :=
  match options with
  | None => DEFAULT_OPTIONS
  | Some o =>
      {| priority :=
           match priority o with
           | Some p => Some p
           | None => priority DEFAULT_OPTIONS
           end;
         scope :=
           match scope o with
           | Some s => Some s
           | None => scope DEFAULT_OPTIONS
           end |}
  end.

(** [@PipelineBehavior(options)] on the class [target]. *)
Definition PipelineBehavior (options : option PipelineBehaviorOptions)
    (target : Class) (metadata : Metadata) : Metadata :=
  {| commandHandlerMetadata := commandHandlerMetadata metadata;
     queryHandlerMetadata := queryHandlerMetadata metadata;
     pipelineBehaviorMetadata :=
       <[target := mergeOptions options]> (pipelineBehaviorMetadata metadata) |}.

Section OnModuleInit.
Context {W : Type} (metadata : Metadata).

(** The class of a provider that the loop does not skip. *)
Definition handlerTypeOf (wrapper : InstanceWrapper) : option Class :=
  match metatype wrapper with
  | Some (ClassType c) => if instance wrapper then Some c else None
  | _ => None
  end.

(** One iteration of the loop of [onModuleInit]. *)
Definition registerProvider (wrapper : InstanceWrapper) : M (Heap W) unit :=
  match handlerTypeOf wrapper with
  | None => ret tt
  | Some handlerType =>
      let* _ :=
        match commandHandlerMetadata metadata !! handlerType with
        | Some commandMetadata =>
            registerCommandHandler commandMetadata handlerType
        | None => ret tt
        end in
      let* _ :=
        match queryHandlerMetadata metadata !! handlerType with
        | Some queryMetadata => registerQueryHandler queryMetadata handlerType
        | None => ret tt
        end in
      match pipelineBehaviorMetadata metadata !! handlerType with
      | Some behaviorMetadata =>
          registerPipelineBehavior handlerType behaviorMetadata
      | None => ret tt
      end
  end.

(** [onModuleInit()] over the providers of the discovery service. *)
Fixpoint onModuleInit (providers : list InstanceWrapper) : M (Heap W) unit :=
  match providers with
  | [] => ret tt
  | wrapper :: providers' =>
      let* _ := registerProvider wrapper in
      onModuleInit providers'
  end.
End OnModuleInit.

(** The behaviors that the providers declare, in the order of the
    providers. *)
Definition declaredBehaviors (metadata : Metadata)
    (providers : list InstanceWrapper) : list RegisteredBehavior :=
  omap (fun wrapper =>
          match handlerTypeOf wrapper with
          | Some handlerType =>
              match pipelineBehaviorMetadata metadata !! handlerType with
              | Some o => Some (mkRegistered handlerType o)
              | None => None
              end
          | None => None
          end)
       providers.

End NestMediatorModule.

(** ** Steps and heaps of the discovery loop *)

Section DiscoverySteps.
Import NestMediatorModule.
Context {W : Type} (metadata : Metadata).

(** The heaps that a run of registrations can lead to from [h]: the
    maps keep what they hold and the rest of the world is the same. *)
Definition extends (h h' : Heap W) : Prop :=
  (forall n x, commandHandlers (bus h) !! n = Some x ->
               commandHandlers (bus h') !! n = Some x)
  /\ (forall n x, queryHandlers (bus h) !! n = Some x ->
                  queryHandlers (bus h') !! n = Some x)
  /\ world h' = world h.

(** One iteration, step by step. *)
Definition commandStep (handlerType : Class) : M (Heap W) unit :=
  match commandHandlerMetadata metadata !! handlerType with
  | Some commandMetadata => registerCommandHandler commandMetadata handlerType
  | None => ret tt
  end.

Definition queryStep (handlerType : Class) : M (Heap W) unit :=
  match queryHandlerMetadata metadata !! handlerType with
  | Some queryMetadata => registerQueryHandler queryMetadata handlerType
  | None => ret tt
  end.

Definition behaviorStep (handlerType : Class) : M (Heap W) unit :=
  match pipelineBehaviorMetadata metadata !! handlerType with
  | Some behaviorMetadata =>
      registerPipelineBehavior handlerType behaviorMetadata
  | None => ret tt
  end.

End DiscoverySteps.

(** ** The providers of the example application *)

Module ExampleApp.
Import NestMediatorModule.

Definition CreateUserCommand : Class := mkClass "CreateUserCommand" 30.
Definition GetUserQuery : Class := mkClass "GetUserQuery" 31.
Definition CreateUserHandler : Class := mkClass "CreateUserHandler" 32.
Definition GetUserHandler : Class := mkClass "GetUserHandler" 33.
Definition AuditLoggingBehavior : Class := mkClass "AuditLoggingBehavior" 34.
Definition CachingBehavior : Class := mkClass "CachingBehavior" 35.
Definition AppService : Class := mkClass "AppService" 36.
(** A second handler class for [CreateUserCommand]. *)
Definition ImportUserHandler : Class := mkClass "ImportUserHandler" 37.

(** The decorators of the application, applied to their classes. *)
Definition metadata : Metadata :=
  CommandHandler CreateUserCommand CreateUserHandler
    (QueryHandler GetUserQuery GetUserHandler
       (PipelineBehavior
          (Some {| priority := Some 50; scope := Some ScopeCommand |})
          AuditLoggingBehavior
          (PipelineBehavior
             (Some {| priority := Some 5; scope := Some ScopeQuery |})
             CachingBehavior
             (CommandHandler CreateUserCommand ImportUserHandler noMetadata)))).

Definition provider (c : Class) : InstanceWrapper :=
  {| metatype := Some (ClassType c); instance := true |}.

(** The providers in the order of the module; a value provider, which
    has no class, is among them. *)
Definition providers : list InstanceWrapper :=
  [ provider AppService;
    {| metatype := None; instance := true |};
    provider CreateUserHandler;
    provider GetUserHandler;
    provider AuditLoggingBehavior;
    provider CachingBehavior ].
End ExampleApp.

(** ** The name of a request, as the behaviors compute it *)

(** [getRequestName(request)]: the name of the class of an object, and
    ['UnknownRequest'] for anything else. *)
Definition getRequestName (request : JsValue) : string :=
  match request with
  | JObject c _ => cname c
  | _ => "UnknownRequest"
  end.

(** ** The caching behavior of the example (caching.behavior.ts) *)

Module CachingBehavior.

(** An entry of the module-level [cache]. *)
Record CacheEntry : Type := mkCacheEntry { data : JsValue; expiry : Z }.

Definition defaultTtlMs : Z := 30000.

Section Methods.
(** The heap holds the cache and the clock that [Date.now()] reads;
    [stringify] is [JSON.stringify]. *)
Context {St : Type}
        (getCache : St -> gmap string CacheEntry)
        (setCache : gmap string CacheEntry -> St -> St)
        (now : St -> Z)
        (stringify : JsValue -> string).

(** [generateCacheKey(request)] *)
Definition generateCacheKey (request : JsValue) : string :=
  let name := getRequestName request in
  let data := stringify request in
  name +:+ ":" +:+ data.

(** [handle(request, next)] *)
Definition handle (request : JsValue) (next : M St JsValue) : M St JsValue :=
  fun s =>
    let cacheKey := generateCacheKey request in
    let miss :=
      match next s with
      | (s1, Returned result) =>
          (setCache
             (<[cacheKey := {| data := result;
                               expiry := now s1 + defaultTtlMs |}]>
                (getCache s1))
             s1,
           Returned result)
      | (s1, Thrown e) => (s1, Thrown e)
      end in
    match getCache s !! cacheKey with
    | Some cached =>
        if expiry cached >? now s then (s, Returned (data cached)) else miss
    | None => miss
    end.

(** [CachingBehavior.clearCache()] *)
Definition clearCache (s : St) : St := setCache ∅ s.
End Methods.

End CachingBehavior.

(** ** A heap for the caching behavior *)

Module CachingExample.
Import CachingBehavior.

(** The cache, the clock and the number of calls of the continuation. *)
Record World : Type := mkWorld {
  cache : gmap string CacheEntry;
  clock : Z;
  calls : nat
}.

Definition setCache (c : gmap string CacheEntry) (s : World) : World :=
  {| cache := c; clock := clock s; calls := calls s |}.

(** A stand-in for [JSON.stringify] that tells the requests of the
    example apart. *)
Definition stringify (v : JsValue) : string :=
  match v with
  | JObject _ [(_, JStr s)] => s
  | _ => "{}"
  end.

(** A query handler that takes 10 ms and returns a user. *)
Definition slowNext : M World JsValue :=
  fun s =>
    ({| cache := cache s; clock := clock s + 10; calls := S (calls s) |},
     Returned (JStr "John Doe")).

Definition getUser : JsValue :=
  JObject (mkClass "GetUserQuery" 31) [("userId", JStr "1")].

Definition start : World := {| cache := ∅; clock := 1000; calls := 0 |}.

(** A heap whose cache holds an answer for [getUser] until 2000. *)
Definition warm : World :=
  {| cache :=
       {[ "GetUserQuery:1" := {| data := JStr "Jane"; expiry := 2000 |} ]};
     clock := 1999;
     calls := 0 |}.
End CachingExample.

(** ** The retry behavior of the example (retry.behavior.ts) *)

Module RetryBehavior.

Definition maxRetries : nat := 3.
Definition initialDelayMs : Z := 100.

(** The [name] property of an error: the two exception classes of the
    library set it to their class name, [TypeError] has its own, and the
    others have the one of [Error]. *)
Definition errorName (error : Exception) : string :=
  match error with
  | Error _ => "Error"
  | TypeError _ => "TypeError"
  | HandlerNotFoundException _ _ => "HandlerNotFoundException"
  | ValidationException _ => "ValidationException"
  | UnknownElementException _ => "Error"
  end.

(** [s.includes(sub)] *)
Definition includes (sub s : string) : bool :=
  match String.index 0 sub s with
  | Some _ => true
  | None => false
  end.

(** The test that [isNonRetryableError] makes on the name of the error:
    [errorName.includes('Validation') || errorName.includes('NotFound')
    || errorName.includes('Unauthorized') ||
    errorName.includes('Forbidden')]. *)
Definition isNonRetryableName (errorName : string) : bool :=
  includes "Validation" errorName
  || includes "NotFound" errorName
  || includes "Unauthorized" errorName
  || includes "Forbidden" errorName.

(** [isNonRetryableError(error)] *)
Definition isNonRetryableError (error : Exception) : bool :=
  let errorName := errorName error in
  isNonRetryableName errorName.

(** [calculateDelay(attempt)]: [initialDelayMs * Math.pow(2, attempt - 1)] *)
Definition calculateDelay (attempt : nat) : Z :=
  initialDelayMs * 2 ^ (Z.of_nat attempt - 1).

Section Methods.
(** [sleep ms] is what waiting for [ms] milliseconds does to the heap. *)
Context {St : Type} (sleep : Z -> St -> St).

(** The loop of [handle] from the attempt [attempt] on, with [more]
    attempts allowed after this one ([attempt < maxRetries] exactly
    when [more] is not zero). *)
Fixpoint attemptFrom (attempt more : nat) (next : M St JsValue)
  : M St JsValue :=
  fun s =>
    match next s with
    | (s1, Returned response) => (s1, Returned response)
    | (s1, Thrown error) =>
        if isNonRetryableError error then (s1, Thrown error)
        else
          match more with
          | O => (s1, Thrown error)
          | S more' =>
              attemptFrom (S attempt) more' next
                          (sleep (calculateDelay attempt) s1)
          end
    end.

(** [handle(request, next)] *)
Definition handle (request : JsValue) (next : M St JsValue) : M St JsValue :=
  attemptFrom 1 (maxRetries - 1) next.
End Methods.

End RetryBehavior.

(** ** The payment handler of the example (process-payment.handler.ts) *)

Module ProcessPaymentHandler.

(** [class ProcessPaymentCommand] *)
Record ProcessPaymentCommand : Type := mkCommand {
  orderId : string;
  amount : Z;
  simulateFailure : bool;
  failCount : Z
}.

Section Methods.
(** The heap holds the module-level [failureTracker]. *)
Context {St : Type}
        (getTracker : St -> gmap string Z)
        (setTracker : gmap string Z -> St -> St)
        (sleep : Z -> St -> St).

(** [execute(command)] *)
Definition execute (command : ProcessPaymentCommand) : M St JsValue :=
  fun s =>
    let process (s' : St) := (sleep 100 s', Returned JUndefined) in
    if simulateFailure command then
      let currentFailures := default 0 (getTracker s !! orderId command) in
      if currentFailures <? failCount command then
        (setTracker (<[orderId command := currentFailures + 1]> (getTracker s)) s,
         Thrown (Error ("Payment gateway temporarily unavailable (attempt "
                          +:+ pretty (currentFailures + 1) +:+ ")")))
      else
        process (setTracker (delete (orderId command) (getTracker s)) s)
    else process s.
End Methods.

End ProcessPaymentHandler.

(** ** A heap for the payment handler under retry *)

Module PaymentExample.
(** The failure tracker and the waits made so far, in milliseconds. *)
Record World : Type := mkWorld {
  tracker : gmap string Z;
  slept : list Z
}.

Definition setTracker (t : gmap string Z) (s : World) : World :=
  {| tracker := t; slept := slept s |}.

Definition sleep (ms : Z) (s : World) : World :=
  {| tracker := tracker s; slept := slept s ++ [ms] |}.

(** The payment under the retry behavior. *)
Definition pay (command : ProcessPaymentHandler.ProcessPaymentCommand)
  : M World JsValue :=
  RetryBehavior.handle sleep JNull
    (ProcessPaymentHandler.execute tracker setTracker sleep command).
End PaymentExample.

(** ** The audit behavior of the example (audit-logging.behavior.ts) *)

Module AuditLoggingBehavior.





Section Methods.
(** [String.prototype.toLowerCase] follows the case mapping of Unicode
    (the Kelvin sign, for one, becomes [k]).  It is a parameter of the
    methods; where a property needs it, it is assumed to be
    [toLowerCaseAscii] on the strings written in ASCII and nothing is
    assumed about the others. *)
Context (toLowerCase : string -> string).


End Methods.

End AuditLoggingBehavior.

(** ** Words up to the case of their letters *)




(** * Properties *)

(** ** The sort *)

Ltac case_leb :=
  repeat (cbn beta;
          match goal with
          | |- context [?a <=? 0] => destruct (Z.leb_spec a 0); try lia
          end).

Section SortFacts.
Context {A : Type} (key : A -> Z).

Local Abbreviation cmp := (fun a b : A => key a - key b).
Local Abbreviation le := (fun a b : A => key a <= key b).

Lemma insertBy_filter_key (p : Z) (x : A) (l : list A) :
  List.filter (fun y => key y =? p) (insertBy cmp x l) =
  if key x =? p
  then x :: List.filter (fun y => key y =? p) l
  else List.filter (fun y => key y =? p) l.
Proof.
  induction l as [|y l IH]; simpl; [reflexivity|].
  case_leb; simpl; [reflexivity|].
  rewrite IH.
  destruct (Z.eqb_spec (key y) p), (Z.eqb_spec (key x) p);
    try reflexivity; lia.
Qed.

Lemma sortBy_filter_key (p : Z) (l : list A) :
  List.filter (fun y => key y =? p) (sortBy cmp l) =
  List.filter (fun y => key y =? p) l.
Proof.
  induction l as [|x l IH]; simpl; [reflexivity|].
  rewrite insertBy_filter_key, IH. reflexivity.
Qed.

Lemma insertBy_Permutation (x : A) (l : list A) :
  Permutation (x :: l) (insertBy cmp x l).
Proof.
  induction l as [|y l IH]; simpl; [reflexivity|].
  destruct (_ <=? 0); [reflexivity|].
  rewrite <- IH. apply perm_swap.
Qed.

Lemma sortBy_Permutation (l : list A) : Permutation l (sortBy cmp l).
Proof.
  induction l as [|x l IH]; simpl; [reflexivity|].
  rewrite <- insertBy_Permutation. by constructor.
Qed.

Lemma insertBy_sorted (x : A) (l : list A) :
  StronglySorted le l -> StronglySorted le (insertBy cmp x l).
Proof.
  induction 1 as [|y l Hs IH Hall]; simpl.
  - repeat constructor.
  - case_leb.
    + constructor; [by constructor|].
      constructor; [lia|].
      eapply Forall_impl; [exact Hall|]. cbn beta. intros z Hz. lia.
    + constructor; [exact IH|].
      rewrite <- insertBy_Permutation. constructor; [lia|exact Hall].
Qed.

Lemma sortBy_sorted (l : list A) : StronglySorted le (sortBy cmp l).
Proof.
  induction l as [|x l IH]; simpl; [constructor|].
  by apply insertBy_sorted.
Qed.

Lemma sortBy_sorted_id (l : list A) :
  StronglySorted le l -> sortBy cmp l = l.
Proof.
  induction 1 as [|x l Hs IH Hall]; simpl; [reflexivity|].
  rewrite IH. destruct l as [|y l]; simpl; [reflexivity|].
  apply Forall_cons in Hall as [Hxy _].
  by case_leb.
Qed.

Lemma insertBy_insertLast (x y : A) (l : list A) :
  insertBy cmp y (insertLast cmp x l) = insertLast cmp x (insertBy cmp y l).
Proof.
  induction l as [|z l IH]; simpl.
  - by case_leb; simpl; case_leb.
  - case_leb; simpl; case_leb; simpl; case_leb; try reflexivity.
    by rewrite IH.
Qed.

(** Sorting after a [push] places the new element behind the
    elements that do not compare greater. *)
Lemma sortBy_snoc (x : A) (l : list A) :
  sortBy cmp (l ++ [x]) = insertLast cmp x (sortBy cmp l).
Proof.
  induction l as [|y l IH]; simpl; [reflexivity|].
  by rewrite IH, insertBy_insertLast.
Qed.

End SortFacts.

(** ** Registration *)

Section RegistrationFacts.
Context {W : Type}.
Implicit Types (h : Heap W) (rs : list Registration).

Lemma sortPriority_sorted (l : list RegisteredBehavior) :
  StronglySorted priorityLe (sortBy comparePriority l).
Proof. apply (sortBy_sorted priorityOf). Qed.

Lemma sortPriority_sorted_id (l : list RegisteredBehavior) :
  StronglySorted priorityLe l -> sortBy comparePriority l = l.
Proof. apply (sortBy_sorted_id priorityOf). Qed.

Lemma sortPriority_snoc (x : RegisteredBehavior) (l : list RegisteredBehavior) :
  sortBy comparePriority (l ++ [x]) =
  insertLast comparePriority x (sortBy comparePriority l).
Proof. apply (sortBy_snoc priorityOf). Qed.

Lemma sortPriority_stable (p : Z) (l : list RegisteredBehavior) :
  withPriority p (sortBy comparePriority l) = withPriority p l.
Proof. apply (sortBy_filter_key priorityOf). Qed.

Lemma sortPriority_Permutation (l : list RegisteredBehavior) :
  Permutation l (sortBy comparePriority l).
Proof. apply (sortBy_Permutation priorityOf). Qed.


Lemma sortBy_app_sortBy (l1 l2 : list RegisteredBehavior) :
  sortBy comparePriority (sortBy comparePriority l1 ++ l2) =
  sortBy comparePriority (l1 ++ l2).
Proof.
  induction l2 as [|x l2 IH] using rev_ind.
  - rewrite !app_nil_r.
    apply sortPriority_sorted_id, sortPriority_sorted.
  - rewrite !app_assoc, !sortPriority_snoc. by rewrite IH.
Qed.

Lemma registerPipelineBehavior_run h (c : Class) (o : PipelineBehaviorOptions) :
  registerPipelineBehavior c o h =
  (setPipelineBehaviors
     (sortBy comparePriority (pipelineBehaviors (bus h) ++ [mkRegistered c o]))
     h,
   Returned tt).
Proof. reflexivity. Qed.

Lemma registerCommandHandler_behaviors h (c handler : Class) :
  pipelineBehaviors (bus (registerCommandHandler c handler h).1) =
  pipelineBehaviors (bus h).
Proof.
  unfold registerCommandHandler, bind, gets. simpl.
  by destruct (decide _).
Qed.

Lemma registerQueryHandler_behaviors h (c handler : Class) :
  pipelineBehaviors (bus (registerQueryHandler c handler h).1) =
  pipelineBehaviors (bus h).
Proof.
  unfold registerQueryHandler, bind, gets. simpl.
  by destruct (decide _).
Qed.

(** The list after startup is the sort of the behaviors registered,
    taken in the order of the calls. *)
Lemma startup_behaviors rs h (l0 : list RegisteredBehavior) :
  pipelineBehaviors (bus h) = sortBy comparePriority l0 ->
  pipelineBehaviors (bus (startup rs h)) =
  sortBy comparePriority (l0 ++ registeredBehaviors rs).
Proof.
  revert h l0. induction rs as [|r rs IH]; intros h l0 Hl0; simpl.
  - by rewrite app_nil_r.
  - destruct r as [c hd|c hd|b o]; simpl.
    + apply IH. by rewrite registerCommandHandler_behaviors.
    + apply IH. by rewrite registerQueryHandler_behaviors.
    + rewrite (IH _ (l0 ++ [mkRegistered b o])).
      * by rewrite <- app_assoc.
      * simpl. by rewrite Hl0, sortBy_app_sortBy.
Qed.

Lemma startup_new_behaviors rs (w : W) :
  pipelineBehaviors (bus (startup rs (mkHeap newMediatorBus w))) =
  sortBy comparePriority (registeredBehaviors rs).
Proof. by rewrite (startup_behaviors rs _ []). Qed.
End RegistrationFacts.

Lemma StronglySorted_filter {A} (R : A -> A -> Prop) (f : A -> bool)
    (l : list A) :
  StronglySorted R l -> StronglySorted R (List.filter f l).
Proof.
  induction 1 as [|x l Hs IH Hall]; simpl; [constructor|].
  destruct (f x); [|exact IH].
  constructor; [exact IH|].
  rewrite List.Forall_forall in *. intros y Hy.
  apply List.filter_In in Hy as [Hy _]. by apply Hall.
Qed.

Lemma filter_filter_comm {A} (f g : A -> bool) (l : list A) :
  List.filter f (List.filter g l) = List.filter g (List.filter f l).
Proof.
  induction l as [|x l IH]; simpl; [reflexivity|].
  destruct (f x) eqn:Hf, (g x) eqn:Hg; simpl; rewrite ?Hf, ?Hg, ?IH; reflexivity.
Qed.

(** C4. After any sequence of registration calls on a new bus, the list
    of behaviors is sorted by ascending priority, its behaviors of each
    priority stand in the order in which they were registered, and it
    holds exactly the behaviors registered; each single registration
    returns and leaves a sorted list and the handler maps as they were;
    a dispatch obtains its behaviors by filtering this list, and the
    result is sorted as well. *)
Theorem C4_behaviors_sorted_stable :
  forall (W : Type) (rs : list Registration) (w : W),
    let this := bus (startup rs (mkHeap newMediatorBus w)) in
    StronglySorted priorityLe (pipelineBehaviors this)
    /\ (forall p, withPriority p (pipelineBehaviors this) =
                  withPriority p (registeredBehaviors rs))
    /\ Permutation (registeredBehaviors rs) (pipelineBehaviors this)
    /\ (forall (h : Heap W) (c : Class) (o : PipelineBehaviorOptions),
          exists h',
            registerPipelineBehavior c o h = (h', Returned tt)
            /\ StronglySorted priorityLe (pipelineBehaviors (bus h'))
            /\ commandHandlers (bus h') = commandHandlers (bus h)
            /\ queryHandlers (bus h') = queryHandlers (bus h)
            /\ world h' = world h)
    /\ (forall (env : Env W) (request : Request) (k : RequestKind),
          applicableBehaviors env this request k =
          List.filter (isApplicable env request k) (pipelineBehaviors this)
          /\ StronglySorted priorityLe (applicableBehaviors env this request k)).
Proof.
  intros W rs w this.
  assert (Hsorted : StronglySorted priorityLe (pipelineBehaviors this)).
  { subst this. rewrite startup_new_behaviors. apply sortPriority_sorted. }
  repeat split.
  - exact Hsorted.
  - intros p. subst this. rewrite startup_new_behaviors.
    apply sortPriority_stable.
  - subst this. rewrite startup_new_behaviors.
    apply sortPriority_Permutation.
  - intros h c o. eexists. rewrite registerPipelineBehavior_run.
    repeat split. simpl. apply sortPriority_sorted.
  - by apply StronglySorted_filter.
Qed.

(** ** Handlers: registration and resolution *)

Section HandlerFacts.
Context {W : Type}.
Implicit Types (h : Heap W).

Lemma registerCommandHandler_taken h (c handler registered : Class) :
  commandHandlers (bus h) !! cname c = Some registered ->
  registerCommandHandler c handler h =
  (h, Thrown (Error ("Command handler for " +:+ cname c
                       +:+ " is already registered"))).
Proof.
  intros Hreg. unfold registerCommandHandler, bind, gets, throw.
  destruct (decide _) as [_|Hno]; [reflexivity|].
  destruct Hno. by rewrite Hreg.
Qed.

Lemma registerCommandHandler_free h (c handler : Class) :
  commandHandlers (bus h) !! cname c = None ->
  registerCommandHandler c handler h =
  (setCommandHandlers (<[cname c := handler]> (commandHandlers (bus h))) h,
   Returned tt).
Proof.
  intros Hreg. unfold registerCommandHandler, bind, gets, modify.
  destruct (decide _) as [Hyes|_]; [|reflexivity].
  rewrite Hreg in Hyes. by destruct Hyes.
Qed.

Lemma registerQueryHandler_taken h (c handler registered : Class) :
  queryHandlers (bus h) !! cname c = Some registered ->
  registerQueryHandler c handler h =
  (h, Thrown (Error ("Query handler for " +:+ cname c
                       +:+ " is already registered"))).
Proof.
  intros Hreg. unfold registerQueryHandler, bind, gets, throw.
  destruct (decide _) as [_|Hno]; [reflexivity|].
  destruct Hno. by rewrite Hreg.
Qed.

Lemma registerQueryHandler_free h (c handler : Class) :
  queryHandlers (bus h) !! cname c = None ->
  registerQueryHandler c handler h =
  (setQueryHandlers (<[cname c := handler]> (queryHandlers (bus h))) h,
   Returned tt).
Proof.
  intros Hreg. unfold registerQueryHandler, bind, gets, modify.
  destruct (decide _) as [Hyes|_]; [|reflexivity].
  rewrite Hreg in Hyes. by destruct Hyes.
Qed.
End HandlerFacts.

(** C3. Registering a handler for a request type whose name is already
    in the map of that namespace throws the duplicate-registration error
    (a plain [Error] saying that the handler is already registered) and
    leaves the heap, hence both maps, as they were; after a first
    registration a second one for the same type fails and the first
    handler is still the one found. *)
Theorem C3_duplicate_handler_rejected :
  forall (W : Type) (h : Heap W) (c handler registered : Class),
    (commandHandlers (bus h) !! cname c = Some registered ->
       registerCommandHandler c handler h =
       (h, Thrown (Error ("Command handler for " +:+ cname c
                            +:+ " is already registered"))))
    /\ (queryHandlers (bus h) !! cname c = Some registered ->
       registerQueryHandler c handler h =
       (h, Thrown (Error ("Query handler for " +:+ cname c
                            +:+ " is already registered"))))
    /\ (commandHandlers (bus h) !! cname c = None ->
        exists h1,
          registerCommandHandler c registered h = (h1, Returned tt)
          /\ registerCommandHandler c handler h1 =
             (h1, Thrown (Error ("Command handler for " +:+ cname c
                                   +:+ " is already registered")))
          /\ commandHandlers (bus h1) !! cname c = Some registered)
    /\ (queryHandlers (bus h) !! cname c = None ->
        exists h1,
          registerQueryHandler c registered h = (h1, Returned tt)
          /\ registerQueryHandler c handler h1 =
             (h1, Thrown (Error ("Query handler for " +:+ cname c
                                   +:+ " is already registered")))
          /\ queryHandlers (bus h1) !! cname c = Some registered).
Proof.
  intros W h c handler registered. repeat split.
  - apply registerCommandHandler_taken.
  - apply registerQueryHandler_taken.
  - intros Hfree. eexists. split; [by apply registerCommandHandler_free|].
    assert (Hnow : commandHandlers
                     (bus (setCommandHandlers
                             (<[cname c := registered]> (commandHandlers (bus h))) h))
                   !! cname c = Some registered)
      by (simpl; apply lookup_insert_eq).
    split; [by eapply registerCommandHandler_taken|exact Hnow].
  - intros Hfree. eexists. split; [by apply registerQueryHandler_free|].
    assert (Hnow : queryHandlers
                     (bus (setQueryHandlers
                             (<[cname c := registered]> (queryHandlers (bus h))) h))
                   !! cname c = Some registered)
      by (simpl; apply lookup_insert_eq).
    split; [by eapply registerQueryHandler_taken|exact Hnow].
Qed.

Lemma C3_duplicate_handler_rejected_witness :
  registerCommandHandler NameCollision.BillingCreateOrder
    NameCollision.ShippingHandler NameCollision.started =
  (NameCollision.started,
   Thrown (Error "Command handler for CreateOrder is already registered"))
  /\ exists h1 : Heap (list Event),
       registerQueryHandler NameCollision.BillingCreateOrder
         NameCollision.BillingHandler NameCollision.started =
       (h1, Returned tt)
       /\ registerQueryHandler NameCollision.BillingCreateOrder
            NameCollision.ShippingHandler h1 =
          (h1, Thrown (Error "Query handler for CreateOrder is already registered"))
       /\ queryHandlers (bus h1) !! "CreateOrder" =
          Some NameCollision.BillingHandler.
Proof.
  split.
  - apply (C3_duplicate_handler_rejected (list Event) NameCollision.started
             NameCollision.BillingCreateOrder NameCollision.ShippingHandler
             NameCollision.BillingHandler).
    vm_compute. reflexivity.
  - apply (C3_duplicate_handler_rejected (list Event) NameCollision.started
             NameCollision.BillingCreateOrder NameCollision.ShippingHandler
             NameCollision.BillingHandler).
    vm_compute. reflexivity.
Defined.

(** ** The pipeline builder *)

Section PipelineFacts.
Context {W : Type}.
Implicit Types (env : Env W) (h : Heap W) (b : RegisteredBehavior).

(** The chain is the fold over the applicable behaviors; with none of
    them it is the handler. *)
Lemma buildPipeline_run env request k (handler : M (Heap W) JsValue) h :
  buildPipeline env request k handler h =
  (h, Returned (fold_right (invokeBehavior env request) handler
                           (applicableBehaviors env (bus h) request k))).
Proof.
  unfold buildPipeline, bind, gets, ret.
  by destruct (applicableBehaviors env (bus h) request k).
Qed.

Lemma In_applicableBehaviors env (this : MediatorBus) request k b :
  In b (applicableBehaviors env this request k) <->
  In b (pipelineBehaviors this) /\ isApplicable env request k b = true.
Proof. apply List.filter_In. Qed.

Lemma isApplicable_skipped env request k b :
  In (type b) (behaviorsToSkip env request) ->
  isApplicable env request k b = false.
Proof.
  intros Hin. unfold isApplicable.
  apply andb_false_iff. right. apply negb_false_iff.
  apply existsb_exists. exists (type b). split; [exact Hin|].
  by apply bool_decide_eq_true.
Qed.

Lemma isApplicable_not_skipped env request k b :
  isApplicable env request k b = true ->
  ~ In (type b) (behaviorsToSkip env request).
Proof.
  intros Happ Hin. by rewrite (isApplicable_skipped _ _ _ _ Hin) in Happ.
Qed.

Lemma isApplicable_scope env request k b :
  isApplicable env request k b = true ->
  scope (options b) = None \/ scope (options b) = Some ScopeAll
  \/ scope (options b) = Some (scopeOfKind k).
Proof.
  unfold isApplicable. intros Happ.
  apply andb_true_iff in Happ as [Hscope _].
  destruct (scope (options b)) as [s|]; [|by left]. right. simpl in Hscope.
  apply orb_true_iff in Hscope as [Hs|Hs];
    apply bool_decide_eq_true in Hs; subst; auto.
Qed.

Lemma isApplicable_all env request k b :
  scope (options b) = None \/ scope (options b) = Some ScopeAll ->
  ~ In (type b) (behaviorsToSkip env request) ->
  isApplicable env request k b = true.
Proof.
  intros Hscope Hskip. unfold isApplicable.
  apply andb_true_iff. split.
  - by destruct Hscope as [-> | ->].
  - apply negb_true_iff. apply not_true_is_false. intros Hex.
    apply existsb_exists in Hex as (c & Hin & Hc).
    apply bool_decide_eq_true in Hc. by subst.
Qed.

(** A chain depends on the container only through the classes of the
    behaviors it is folded over. *)
Lemma fold_invokeBehavior_replace env (c : Class) inst request
    (handler : M (Heap W) JsValue) (l : list RegisteredBehavior) :
  (forall b, In b l -> type b <> c) ->
  fold_right (invokeBehavior (replaceInstance c inst env) request) handler l =
  fold_right (invokeBehavior env request) handler l.
Proof.
  induction l as [|b l IH]; intros Hne; simpl; [reflexivity|].
  rewrite IH by (intros b' Hb'; apply Hne; by right).
  unfold invokeBehavior at 1 3, moduleRef_get. simpl.
  destruct (decide (type b = c)) as [Heq|_]; [|reflexivity].
  destruct (Hne b); [by left|exact Heq].
Qed.

Lemma buildPipeline_replace env (c : Class) inst request k
    (handler : M (Heap W) JsValue) h :
  (forall b, In b (applicableBehaviors env (bus h) request k) -> type b <> c) ->
  buildPipeline (replaceInstance c inst env) request k handler h =
  buildPipeline env request k handler h.
Proof.
  intros Hne. rewrite !buildPipeline_run.
  change (applicableBehaviors (replaceInstance c inst env))
    with (applicableBehaviors env).
  by rewrite fold_invokeBehavior_replace.
Qed.

Lemma send_replace env (c : Class) inst request h :
  commandHandlers (bus h) !! cname (constructor request) <> Some c ->
  (forall b, In b (applicableBehaviors env (bus h) request Command) ->
             type b <> c) ->
  send (replaceInstance c inst env) request h = send env request h.
Proof.
  intros Hhandler Hne. unfold send, bind at 1 5, gets.
  destruct (commandHandlers (bus h) !! cname (constructor request))
    as [handlerType|]; [|reflexivity].
  unfold bind at 1 4, moduleRef_get. simpl.
  destruct (decide (handlerType = c)) as [->|_]; [done|].
  destruct (moduleRef env handlerType) as [handler|]; [|reflexivity].
  unfold ret at 1 3. unfold bind at 1 3.
  by rewrite buildPipeline_replace.
Qed.

Lemma query_replace env (c : Class) inst request h :
  queryHandlers (bus h) !! cname (constructor request) <> Some c ->
  (forall b, In b (applicableBehaviors env (bus h) request Query) ->
             type b <> c) ->
  query (replaceInstance c inst env) request h = query env request h.
Proof.
  intros Hhandler Hne. unfold query, bind at 1 4, gets.
  destruct (queryHandlers (bus h) !! cname (constructor request))
    as [handlerType|]; [|reflexivity].
  unfold bind at 1 3, moduleRef_get. simpl.
  destruct (decide (handlerType = c)) as [->|_]; [done|].
  destruct (moduleRef env handlerType) as [handler|]; [|reflexivity].
  unfold ret at 1 2. unfold bind at 1 2.
  by rewrite buildPipeline_replace.
Qed.
End PipelineFacts.

Lemma SkipBehavior_lookup (behavior : Class + list Class) (target : Class)
    (metadata : gmap Class (list Class)) :
  SkipBehavior behavior target metadata !! target =
  Some (match behavior with inl b => [b] | inr bs => bs end).
Proof. unfold SkipBehavior. apply lookup_insert_eq. Qed.

(** C5. When the class of a request declares a skip-list that names the
    class [c], then in every dispatch of that request, for either
    namespace, no registration of [c] is among the applicable
    behaviors, and the chain and the whole dispatch are the same
    whatever object the container holds for [c]: the [handle] of [c] is
    not called.  (For [send] and [query], [c] is taken not to be the
    class of the request's handler, which is called.) *)
Theorem C5_skipped_behavior_never_invoked :
  forall (W : Type) (env : Env W) (h : Heap W) (request : Request)
         (skipList : list Class) (c : Class),
    skipMetadata env !! constructor request = Some skipList ->
    In c skipList ->
    forall k : RequestKind,
      (forall b, In b (pipelineBehaviors (bus h)) -> type b = c ->
                 ~ In b (applicableBehaviors env (bus h) request k))
      /\ (forall inst handler,
            buildPipeline (replaceInstance c inst env) request k handler h =
            buildPipeline env request k handler h)
      /\ (forall inst,
            commandHandlers (bus h) !! cname (constructor request) <> Some c ->
            send (replaceInstance c inst env) request h = send env request h)
      /\ (forall inst,
            queryHandlers (bus h) !! cname (constructor request) <> Some c ->
            query (replaceInstance c inst env) request h = query env request h).
Proof.
  intros W env h request skipList c Hmeta Hin k.
  assert (Hskip : In c (behaviorsToSkip env request)).
  { unfold behaviorsToSkip. by rewrite Hmeta. }
  assert (Hne : forall k' b,
             In b (applicableBehaviors env (bus h) request k') -> type b <> c).
  { intros k' b Hb Heq. apply In_applicableBehaviors in Hb as [_ Happ].
    apply isApplicable_not_skipped in Happ. apply Happ. by rewrite Heq. }
  repeat split.
  - intros b _ Heq Hb. by apply (Hne k b).
  - intros inst handler. apply buildPipeline_replace, Hne.
  - intros inst Hhandler. apply send_replace; [exact Hhandler|apply Hne].
  - intros inst Hhandler. apply query_replace; [exact Hhandler|apply Hne].
Qed.

Lemma C5_skipped_behavior_never_invoked_witness :
  query (replaceInstance Scenario.B None Scenario.skippingEnv)
         (mkRequest Scenario.Q []) Scenario.started =
  query Scenario.skippingEnv (mkRequest Scenario.Q []) Scenario.started.
Proof.
  apply (C5_skipped_behavior_never_invoked (list Event) Scenario.skippingEnv
           Scenario.started (mkRequest Scenario.Q []) [Scenario.B] Scenario.B).
  - apply SkipBehavior_lookup.
  - simpl. left. reflexivity.
  - exact Query.
  - vm_compute. discriminate.
Defined.

(** C6. A behavior registered with scope ['query'] is not among the
    applicable behaviors of a command sent with [send], and one
    registered with scope ['command'] is not among those of a query; a
    class all of whose registrations have the other scope has no effect
    on the dispatch, whatever the container holds for it; a behavior
    with scope ['all'] (or with no scope) is applicable in both
    namespaces exactly when it is registered and not skipped. *)
Theorem C6_scope_respected :
  forall (W : Type) (env : Env W) (h : Heap W) (request : Request),
    (forall b, scope (options b) = Some ScopeQuery ->
               ~ In b (applicableBehaviors env (bus h) request Command))
    /\ (forall b, scope (options b) = Some ScopeCommand ->
                  ~ In b (applicableBehaviors env (bus h) request Query))
    /\ (forall c inst,
          (forall b, In b (pipelineBehaviors (bus h)) -> type b = c ->
                     scope (options b) = Some ScopeQuery) ->
          commandHandlers (bus h) !! cname (constructor request) <> Some c ->
          send (replaceInstance c inst env) request h = send env request h)
    /\ (forall c inst,
          (forall b, In b (pipelineBehaviors (bus h)) -> type b = c ->
                     scope (options b) = Some ScopeCommand) ->
          queryHandlers (bus h) !! cname (constructor request) <> Some c ->
          query (replaceInstance c inst env) request h = query env request h)
    /\ (forall b k,
          scope (options b) = Some ScopeAll \/ scope (options b) = None ->
          (In b (applicableBehaviors env (bus h) request k) <->
           In b (pipelineBehaviors (bus h))
           /\ ~ In (type b) (behaviorsToSkip env request))).
Proof.
  intros W env h request.
  assert (Hq : forall b, scope (options b) = Some ScopeQuery ->
                 ~ In b (applicableBehaviors env (bus h) request Command)).
  { intros b Hs Hb. apply In_applicableBehaviors in Hb as [_ Happ].
    apply isApplicable_scope in Happ. rewrite Hs in Happ.
    destruct Happ as [?|[?|?]]; discriminate. }
  assert (Hc : forall b, scope (options b) = Some ScopeCommand ->
                 ~ In b (applicableBehaviors env (bus h) request Query)).
  { intros b Hs Hb. apply In_applicableBehaviors in Hb as [_ Happ].
    apply isApplicable_scope in Happ. rewrite Hs in Happ.
    destruct Happ as [?|[?|?]]; discriminate. }
  refine (conj Hq (conj Hc (conj _ (conj _ _)))).
  - intros c inst Hall Hhandler. apply send_replace; [exact Hhandler|].
    intros b Hb Heq. apply (Hq b); [|exact Hb].
    apply Hall; [|exact Heq]. by apply In_applicableBehaviors in Hb as [? _].
  - intros c inst Hall Hhandler. apply query_replace; [exact Hhandler|].
    intros b Hb Heq. apply (Hc b); [|exact Hb].
    apply Hall; [|exact Heq]. by apply In_applicableBehaviors in Hb as [? _].
  - intros b k Hscope. rewrite In_applicableBehaviors. split.
    + intros [Hin Happ].
      split; [exact Hin|by apply isApplicable_not_skipped in Happ].
    + intros [Hin Hskip]. split; [exact Hin|].
      apply isApplicable_all; [|exact Hskip]. tauto.
Qed.

Lemma C6_scope_respected_witness :
  ~ In Scenario.queryOnly
       (applicableBehaviors Scenario.env
          (bus (setPipelineBehaviors
                  [Scenario.queryOnly; Scenario.commandOnly] Scenario.started))
          (mkRequest Scenario.Q []) Command)
  /\ ~ In Scenario.commandOnly
          (applicableBehaviors Scenario.env
             (bus (setPipelineBehaviors
                     [Scenario.queryOnly; Scenario.commandOnly] Scenario.started))
             (mkRequest Scenario.Q []) Query).
Proof.
  split.
  - apply (C6_scope_respected (list Event) Scenario.env
             (setPipelineBehaviors [Scenario.queryOnly; Scenario.commandOnly]
                                   Scenario.started)
             (mkRequest Scenario.Q [])).
    reflexivity.
  - apply (C6_scope_respected (list Event) Scenario.env
             (setPipelineBehaviors [Scenario.queryOnly; Scenario.commandOnly]
                                   Scenario.started)
             (mkRequest Scenario.Q [])).
    reflexivity.
Defined.

(** ** Chains of tracing behaviors *)

Lemma logged_nil (h : Heap (list Event)) : logged [] h = h.
Proof. destruct h. unfold logged. simpl. by rewrite app_nil_r. Qed.

Lemma logged_logged (evs1 evs2 : list Event) (h : Heap (list Event)) :
  logged evs2 (logged evs1 h) = logged (evs1 ++ evs2) h.
Proof. unfold logged. simpl. by rewrite app_assoc. Qed.

(** One tracing behavior around [next]. *)
Lemma invokeBehavior_tracing (env : Env (list Event)) (request : Request)
    (b : RegisteredBehavior) (next : M (Heap (list Event)) JsValue)
    (h : Heap (list Event)) :
  moduleRef env (type b) = Some (Behavior (tracingHandle (type b))) ->
  invokeBehavior env request b next h =
  match next (logged [Enter (type b)] h) with
  | (h', Returned response) => (logged [Exit (type b)] h', Returned response)
  | (h', Thrown e) => (h', Thrown e)
  end.
Proof.
  intros Hb. unfold invokeBehavior, moduleRef_get. rewrite Hb.
  unfold bind at 1, ret at 1. simpl.
  unfold tracingHandle, bind, logEvent, modify, ret.
  by destruct (next (logged [Enter (type b)] h)) as [h' [response|e]].
Qed.

(** A chain of tracing behaviors around a handler that returns: the
    handler runs in the heap in which every behavior of the chain has
    logged its entry, first to last, and the exits are logged behind
    what the handler leaves, last to first. *)
Lemma tracing_chain (env : Env (list Event)) (request : Request)
    (handler : M (Heap (list Event)) JsValue) (l : list RegisteredBehavior) :
  (forall b, In b l ->
             moduleRef env (type b) = Some (Behavior (tracingHandle (type b)))) ->
  forall (h h1 : Heap (list Event)) (v : JsValue),
    handler (logged (map Enter (map type l)) h) = (h1, Returned v) ->
    fold_right (invokeBehavior env request) handler l h =
    (logged (map Exit (rev (map type l))) h1, Returned v).
Proof.
  induction l as [|b l IH]; intros Hall h h1 v Hrun; simpl in *.
  - rewrite logged_nil in Hrun. by rewrite logged_nil.
  - rewrite invokeBehavior_tracing by (apply Hall; by left).
    rewrite (IH (fun b' Hb' => Hall b' (or_intror Hb'))
                (logged [Enter (type b)] h) h1 v)
      by (by rewrite logged_logged).
    by rewrite logged_logged, map_app.
Qed.

(** A chain of tracing behaviors around a handler that throws: the
    entries are logged, no exit is, and the error reaches the caller. *)
Lemma tracing_chain_thrown (env : Env (list Event)) (request : Request)
    (handler : M (Heap (list Event)) JsValue) (l : list RegisteredBehavior) :
  (forall b, In b l ->
             moduleRef env (type b) = Some (Behavior (tracingHandle (type b)))) ->
  forall (h h1 : Heap (list Event)) (e : Exception),
    handler (logged (map Enter (map type l)) h) = (h1, Thrown e) ->
    fold_right (invokeBehavior env request) handler l h = (h1, Thrown e).
Proof.
  induction l as [|b l IH]; intros Hall h h1 v Hrun; simpl in *.
  - by rewrite logged_nil in Hrun.
  - rewrite invokeBehavior_tracing by (apply Hall; by left).
    by rewrite (IH (fun b' Hb' => Hall b' (or_intror Hb'))
                   (logged [Enter (type b)] h) h1 v)
      by (by rewrite logged_logged).
Qed.

(** C1. On a bus set up by any sequence of registration calls, with
    tracing behaviors and a handler that returns [v]: the applicable
    behaviors are in ascending order of priority and, within a priority,
    in the order of registration; the handler runs in the heap in which
    they have logged their entries in that order; the dispatch returns
    ([v] for [query]) with their exits logged in the reverse order
    behind what the handler left.  With behaviors of any kind, the
    chain that is built is the fold of the applicable behaviors, in
    that order, around the handler: the first is outermost and the
    handler is innermost.  In the scenario A(-100), B(0),
    C(100), all of scope ['all'], around a query handler returning 42,
    the log is enter A, enter B, enter C, handler returns 42, exit C,
    exit B, exit A and the result is 42, in whichever order the three
    were registered. *)
Theorem C1_entries_ascending_exits_descending :
  (forall (env : Env (list Event)) (rs : list Registration)
          (log0 : list Event) (request : Request) (k : RequestKind)
          (handlerType : Class)
          (f : Request -> M (Heap (list Event)) JsValue)
          (h1 : Heap (list Event)) (v : JsValue),
      let h := startup rs (mkHeap newMediatorBus log0) in
      let bs := applicableBehaviors env (bus h) request k in
      (forall b, In b bs ->
                 moduleRef env (type b) =
                 Some (Behavior (tracingHandle (type b)))) ->
      moduleRef env handlerType = Some (Handler f) ->
      f request (logged (map Enter (map type bs)) h) = (h1, Returned v) ->
      StronglySorted priorityLe bs
      /\ (forall p,
            withPriority p bs =
            withPriority p (List.filter (isApplicable env request k)
                                        (registeredBehaviors rs)))
      /\ (k = Command ->
          commandHandlers (bus h) !! cname (constructor request)
            = Some handlerType ->
          send env request h =
          (logged (map Exit (rev (map type bs))) h1, Returned tt))
      /\ (k = Query ->
          queryHandlers (bus h) !! cname (constructor request)
            = Some handlerType ->
          query env request h =
          (logged (map Exit (rev (map type bs))) h1, Returned v)))
  /\ (forall (W : Type) (env : Env W) (rs : list Registration) (w : W)
             (request : Request) (k : RequestKind)
             (handler : M (Heap W) JsValue),
        let h := startup rs (mkHeap newMediatorBus w) in
        let bs := applicableBehaviors env (bus h) request k in
        buildPipeline env request k handler h =
        (h, Returned (fold_right (invokeBehavior env request) handler bs))
        /\ StronglySorted priorityLe bs)
  /\ query Scenario.env (mkRequest Scenario.Q []) Scenario.started =
     (logged [Enter Scenario.A; Enter Scenario.B; Enter Scenario.C;
              HandlerReturns (JNum 42);
              Exit Scenario.C; Exit Scenario.B; Exit Scenario.A]
             Scenario.started,
      Returned (JNum 42))
  /\ query Scenario.env (mkRequest Scenario.Q []) Scenario.started' =
     (logged [Enter Scenario.A; Enter Scenario.B; Enter Scenario.C;
              HandlerReturns (JNum 42);
              Exit Scenario.C; Exit Scenario.B; Exit Scenario.A]
             Scenario.started',
      Returned (JNum 42)).
Proof.
  split; [|split; [|split; vm_compute; reflexivity]].
  2: { intros W env rs w request k handler h bs.
       split; [apply buildPipeline_run|].
       subst bs h. unfold applicableBehaviors.
       rewrite startup_new_behaviors.
       apply StronglySorted_filter, sortPriority_sorted. }
  intros env rs log0 request k handlerType f h1 v h bs Hbs Hhandler Hrun.
  assert (Hlist : pipelineBehaviors (bus h) =
                  sortBy comparePriority (registeredBehaviors rs))
    by apply startup_new_behaviors.
  refine (conj _ (conj _ (conj _ _))).
  - subst bs. unfold applicableBehaviors. rewrite Hlist.
    apply StronglySorted_filter, sortPriority_sorted.
  - intros p. subst bs. unfold applicableBehaviors, withPriority.
    rewrite Hlist, filter_filter_comm.
    rewrite (filter_filter_comm _ _ (registeredBehaviors rs)).
    f_equal. apply sortPriority_stable.
  - intros -> Hreg. unfold send, bind at 1, gets. rewrite Hreg.
    unfold bind at 1, moduleRef_get. rewrite Hhandler. unfold ret at 1.
    unfold bind at 1. rewrite buildPipeline_run.
    unfold bind. fold bs. simpl execute.
    by rewrite (tracing_chain env request (f request) bs Hbs h h1 v Hrun).
  - intros -> Hreg. unfold query, bind at 1, gets. rewrite Hreg.
    unfold bind at 1, moduleRef_get. rewrite Hhandler. unfold ret at 1.
    unfold bind at 1. rewrite buildPipeline_run.
    fold bs. simpl execute.
    by rewrite (tracing_chain env request (f request) bs Hbs h h1 v Hrun).
Qed.

Lemma C1_entries_ascending_exits_descending_witness :
  query Scenario.env (mkRequest Scenario.Q []) Scenario.started =
  (logged [Exit Scenario.C; Exit Scenario.B; Exit Scenario.A]
          (logged [Enter Scenario.A; Enter Scenario.B; Enter Scenario.C;
                   HandlerReturns (JNum 42)]
                  Scenario.started),
   Returned (JNum 42)).
Proof.
  refine (proj2 (proj2 (proj2
            (proj1 C1_entries_ascending_exits_descending
               Scenario.env Scenario.registrations [] (mkRequest Scenario.Q [])
               Query Scenario.QHandler (tracingExecute (JNum 42))
               (logged [Enter Scenario.A; Enter Scenario.B; Enter Scenario.C;
                        HandlerReturns (JNum 42)] Scenario.started)
               (JNum 42) _ _ _))) eq_refl _).
  - intros b Hb. vm_compute in Hb.
    destruct Hb as [<-|[<-|[<-|[]]]]; vm_compute; reflexivity.
  - vm_compute. reflexivity.
  - vm_compute. reflexivity.
  - vm_compute. reflexivity.
Defined.

(** ** A class registered twice *)









(** ** The scenario, skipped and doubled *)

(** With [@SkipBehavior(B)] on the query class, B is left out of the
    trace of the scenario. *)
Example scenario_with_B_skipped :
  query Scenario.skippingEnv (mkRequest Scenario.Q []) Scenario.started =
  (logged [Enter Scenario.A; Enter Scenario.C; HandlerReturns (JNum 42);
           Exit Scenario.C; Exit Scenario.A]
          Scenario.started,
   Returned (JNum 42)).
Proof. vm_compute. reflexivity. Qed.

(** With B registered a second time, its [handle] runs twice, the
    second run inside the first. *)
Example scenario_with_B_twice :
  query Scenario.env (mkRequest Scenario.Q [])
        (startup [RegisterPipelineBehavior Scenario.B (Scenario.allAt 0)]
                 Scenario.started) =
  (logged [Enter Scenario.A; Enter Scenario.B; Enter Scenario.B;
           Enter Scenario.C; HandlerReturns (JNum 42);
           Exit Scenario.C; Exit Scenario.B; Exit Scenario.B; Exit Scenario.A]
          (startup [RegisterPipelineBehavior Scenario.B (Scenario.allAt 0)]
                   Scenario.started),
   Returned (JNum 42)).
Proof. vm_compute. reflexivity. Qed.

(** ** The validation behavior *)

(** C8. For a request object, [handle] validates first.  When the
    validation yields at least one error, [handle] throws a
    [ValidationException] carrying exactly the list that the validation
    yielded; the heap is the one left by the validation and the outcome
    is the same for every continuation, which is not called.  When it
    yields no error, [handle] is the call of the continuation in the
    heap left by the validation: its outcome is returned as it is.  A
    request that is not an object goes to the continuation at once. *)
Theorem C8_validation_throws_or_delegates :
  forall (St : Type) (getThis : St -> ValidationBehavior.Fields)
         (setThis : ValidationBehavior.Fields -> St -> St)
         (importClassValidator : option ValidationBehavior.ClassValidatorModule)
         (next : M St JsValue) (s : St),
    (forall (c : Class) (ps : list (string * JsValue)),
        let r := ValidationBehavior.validateRequest importClassValidator
                   (getThis s) (mkRequest c ps) in
        (r.2 <> [] ->
           ValidationBehavior.handle importClassValidator getThis setThis
             (JObject c ps) next s =
           (setThis r.1 s, Thrown (ValidationException r.2)))
        /\ (r.2 = [] ->
           ValidationBehavior.handle importClassValidator getThis setThis
             (JObject c ps) next s =
           next (setThis r.1 s)))
    /\ (forall request : JsValue,
          (forall c ps, request <> JObject c ps) ->
          ValidationBehavior.handle importClassValidator getThis setThis
            request next s =
          next s).
Proof.
  intros St getThis setThis importClassValidator next s. split.
  - intros c ps r. unfold ValidationBehavior.handle, bind. fold r.
    split; intros Herrors.
    + destruct (r.2) as [|e errors]; [done|reflexivity].
    + by rewrite Herrors.
  - intros request Hnot.
    destruct request as [| | | | |c ps]; try reflexivity.
    by destruct (Hnot c ps).
Qed.

Lemma C8_validation_throws_or_delegates_witness :
  ValidationBehavior.handle (Some ValidationExample.classValidator)
    ValidationExample.getThis ValidationExample.setThis
    ValidationExample.badCommand ValidationExample.countingNext
    (ValidationBehavior.newValidationBehavior, 0%nat) =
  ((ValidationExample.loaded, 0%nat),
   Thrown (ValidationException
             [ mkValidationError "email" "email must be an email" None
                 (Some (JStr "invalid")) None;
               mkValidationError "profile.name" "name is too short" None
                 (Some (JStr "a")) None ]))
  /\ ValidationBehavior.handle (Some ValidationExample.classValidator)
       ValidationExample.getThis ValidationExample.setThis
       (JObject Scenario.Q []) ValidationExample.countingNext
       (ValidationBehavior.newValidationBehavior, 0%nat) =
     ((ValidationExample.loaded, 1%nat), Returned (JStr "handled"))
  /\ ValidationBehavior.handle (Some ValidationExample.classValidator)
       ValidationExample.getThis ValidationExample.setThis
       (JStr "not an object") ValidationExample.countingNext
       (ValidationBehavior.newValidationBehavior, 0%nat) =
     ((ValidationBehavior.newValidationBehavior, 1%nat),
      Returned (JStr "handled")).
Proof.
  split; [|split].
  - apply (proj1 (C8_validation_throws_or_delegates
                    (ValidationBehavior.Fields * nat)
                    ValidationExample.getThis ValidationExample.setThis
                    (Some ValidationExample.classValidator)
                    ValidationExample.countingNext
                    (ValidationBehavior.newValidationBehavior, 0%nat))
                 ValidationExample.CreateUserCommand
                 [("email", JStr "invalid")]).
    vm_compute. discriminate.
  - apply (proj1 (C8_validation_throws_or_delegates
                    (ValidationBehavior.Fields * nat)
                    ValidationExample.getThis ValidationExample.setThis
                    (Some ValidationExample.classValidator)
                    ValidationExample.countingNext
                    (ValidationBehavior.newValidationBehavior, 0%nat))
                 Scenario.Q []).
    vm_compute. reflexivity.
  - apply (proj2 (C8_validation_throws_or_delegates
                    (ValidationBehavior.Fields * nat)
                    ValidationExample.getThis ValidationExample.setThis
                    (Some ValidationExample.classValidator)
                    ValidationExample.countingNext
                    (ValidationBehavior.newValidationBehavior, 0%nat))).
    intros c ps. discriminate.
Defined.

(** ** The identity of a request type *)




(** ** Behaviors that declare a request type *)

(** C2 (the code departs from it).  [CreateUserValidationBehavior]
    declares [CreateUserCommand] through [@Handle()] and is registered
    with scope ['command'].  A [DeleteUserCommand], which is of another
    class, is sent: the behavior is among the applicable behaviors, and
    its [handle] runs around the handler. *)
Theorem C2_declared_target_type_not_checked :
  declaredTargetType TypeTargeted.handleMetadata
                     TypeTargeted.CreateUserValidationBehavior =
  Some TypeTargeted.CreateUserCommand
  /\ constructor TypeTargeted.deleteUser <> TypeTargeted.CreateUserCommand
  /\ applicableBehaviors TypeTargeted.env (bus TypeTargeted.started)
                         TypeTargeted.deleteUser Command =
     [ {| type := TypeTargeted.CreateUserValidationBehavior;
          options := {| priority := Some 95; scope := Some ScopeCommand |} |} ]
  /\ send TypeTargeted.env TypeTargeted.deleteUser TypeTargeted.started =
     (logged [ Enter TypeTargeted.CreateUserValidationBehavior;
               HandlerReturns JUndefined;
               Exit TypeTargeted.CreateUserValidationBehavior ]
             TypeTargeted.started,
      Returned tt).
Proof.
  split; [vm_compute; reflexivity|].
  split; [discriminate|].
  split; vm_compute; reflexivity.
Qed.

(** * Further properties of the bus *)

(** ** Dispatch without behaviors *)

(** X1. When no behavior is applicable to a request, the dispatch is
    the call of the handler's [execute] and nothing else: [query] has
    the outcome and the heap of [execute], and [send] has them too,
    with the value returned replaced by no value. *)
Theorem dispatch_without_behaviors :
  forall (W : Type) (env : Env W) (h : Heap W) (request : Request)
         (handlerType : Class) (handler : Instance W),
    moduleRef env handlerType = Some handler ->
    (queryHandlers (bus h) !! cname (constructor request) = Some handlerType ->
     applicableBehaviors env (bus h) request Query = [] ->
     query env request h = execute handler request h)
    /\ (commandHandlers (bus h) !! cname (constructor request) = Some handlerType ->
        applicableBehaviors env (bus h) request Command = [] ->
        send env request h =
        match execute handler request h with
        | (h', Returned _) => (h', Returned tt)
        | (h', Thrown e) => (h', Thrown e)
        end).
Proof.
  intros W env h request handlerType handler Hinst. split.
  - intros Hreg Hnone. unfold query, bind at 1, gets. rewrite Hreg.
    unfold bind at 1, moduleRef_get. rewrite Hinst. unfold ret at 1.
    unfold bind at 1. rewrite buildPipeline_run, Hnone. reflexivity.
  - intros Hreg Hnone. unfold send, bind at 1, gets. rewrite Hreg.
    unfold bind at 1, moduleRef_get. rewrite Hinst. unfold ret at 1.
    unfold bind at 1. rewrite buildPipeline_run, Hnone. simpl.
    unfold bind, ret. by destruct (execute handler request h) as [h' [v|e]].
Qed.

Lemma dispatch_without_behaviors_witness :
  send NameCollision.env (mkRequest NameCollision.BillingCreateOrder [])
       NameCollision.started =
  match
    execute (Handler (tracingExecute (JStr "billing")))
            (mkRequest NameCollision.BillingCreateOrder [])
            NameCollision.started
  with
  | (h', Returned _) => (h', Returned tt)
  | (h', Thrown e) => (h', Thrown e)
  end.
Proof.
  apply (dispatch_without_behaviors (list Event) NameCollision.env
           NameCollision.started
           (mkRequest NameCollision.BillingCreateOrder [])
           NameCollision.BillingHandler
           (Handler (tracingExecute (JStr "billing")))).
  - vm_compute. reflexivity.
  - vm_compute. reflexivity.
  - vm_compute. reflexivity.
Defined.

(** ** The two namespaces *)

Lemma send_not_found {W} (env : Env W) (h : Heap W) (request : Request) :
  commandHandlers (bus h) !! cname (constructor request) = None ->
  send env request h =
  (h, Thrown (HandlerNotFoundException (cname (constructor request)) Command)).
Proof. intros Hnone. unfold send, bind, gets. by rewrite Hnone. Qed.

Lemma query_not_found {W} (env : Env W) (h : Heap W) (request : Request) :
  queryHandlers (bus h) !! cname (constructor request) = None ->
  query env request h =
  (h, Thrown (HandlerNotFoundException (cname (constructor request)) Query)).
Proof. intros Hnone. unfold query, bind, gets. by rewrite Hnone. Qed.

(** X2. Registering a command handler writes the command map only: the
    query map, the behaviors and the rest of the heap are as before, so
    a query of that class still finds no handler; and the other way
    round for a query handler. *)
Theorem namespaces_are_separate :
  forall (W : Type) (env : Env W) (h : Heap W) (c handler : Class)
         (ps : list (string * JsValue)),
    let hc := (registerCommandHandler c handler h).1 in
    let hq := (registerQueryHandler c handler h).1 in
    queryHandlers (bus hc) = queryHandlers (bus h)
    /\ pipelineBehaviors (bus hc) = pipelineBehaviors (bus h)
    /\ world hc = world h
    /\ commandHandlers (bus hq) = commandHandlers (bus h)
    /\ pipelineBehaviors (bus hq) = pipelineBehaviors (bus h)
    /\ world hq = world h
    /\ (queryHandlers (bus h) !! cname c = None ->
        query env (mkRequest c ps) hc =
        (hc, Thrown (HandlerNotFoundException (cname c) Query)))
    /\ (commandHandlers (bus h) !! cname c = None ->
        send env (mkRequest c ps) hq =
        (hq, Thrown (HandlerNotFoundException (cname c) Command))).
Proof.
  intros W env h c handler ps hc hq.
  assert (Hc : queryHandlers (bus hc) = queryHandlers (bus h)
               /\ pipelineBehaviors (bus hc) = pipelineBehaviors (bus h)
               /\ world hc = world h).
  { subst hc. unfold registerCommandHandler, bind, gets, throw, modify.
    by destruct (decide _). }
  assert (Hq : commandHandlers (bus hq) = commandHandlers (bus h)
               /\ pipelineBehaviors (bus hq) = pipelineBehaviors (bus h)
               /\ world hq = world h).
  { subst hq. unfold registerQueryHandler, bind, gets, throw, modify.
    by destruct (decide _). }
  destruct Hc as (Hc1 & Hc2 & Hc3), Hq as (Hq1 & Hq2 & Hq3).
  refine (conj Hc1 (conj Hc2 (conj Hc3 (conj Hq1 (conj Hq2 (conj Hq3 _)))))).
  split; intros Hnone.
  - apply (query_not_found env hc (mkRequest c ps)).
    simpl. by rewrite Hc1.
  - apply (send_not_found env hq (mkRequest c ps)).
    simpl. by rewrite Hq1.
Qed.

Lemma namespaces_are_separate_witness :
  query NameCollision.env (mkRequest NameCollision.ShippingCreateOrder [])
        (registerCommandHandler NameCollision.ShippingCreateOrder
           NameCollision.ShippingHandler NameCollision.started).1 =
  ((registerCommandHandler NameCollision.ShippingCreateOrder
      NameCollision.ShippingHandler NameCollision.started).1,
   Thrown (HandlerNotFoundException "CreateOrder" Query)).
Proof.
  apply (namespaces_are_separate (list Event) NameCollision.env
           NameCollision.started NameCollision.ShippingCreateOrder
           NameCollision.ShippingHandler []).
  vm_compute. reflexivity.
Defined.

(** ** The history of the maps and of the list *)

Lemma startup_commandHandlers {W} (rs : list Registration) (h : Heap W)
    (n : string) :
  commandHandlers (bus (startup rs h)) !! n =
  match commandHandlers (bus h) !! n with
  | Some handler => Some handler
  | None => firstCommandHandler rs n
  end.
Proof.
  revert h. induction rs as [|r rs IH]; intros h; simpl.
  - by destruct (commandHandlers (bus h) !! n).
  - rewrite IH. destruct r as [c handler|c handler|b o]; simpl.
    + unfold registerCommandHandler, bind, gets, throw, modify.
      destruct (decide (is_Some (commandHandlers (bus h) !! cname c)))
        as [[x Hx]|Hfree]; simpl.
      * destruct (decide (cname c = n)) as [<-|Hne]; [by rewrite Hx|done].
      * destruct (decide (cname c = n)) as [<-|Hne].
        -- rewrite lookup_insert_eq.
           destruct (commandHandlers (bus h) !! cname c) eqn:E; [|done].
           destruct Hfree. by eexists.
        -- by rewrite lookup_insert_ne.
    + unfold registerQueryHandler, bind, gets, throw, modify.
      by destruct (decide _).
    + reflexivity.
Qed.

Lemma startup_queryHandlers {W} (rs : list Registration) (h : Heap W)
    (n : string) :
  queryHandlers (bus (startup rs h)) !! n =
  match queryHandlers (bus h) !! n with
  | Some handler => Some handler
  | None => firstQueryHandler rs n
  end.
Proof.
  revert h. induction rs as [|r rs IH]; intros h; simpl.
  - by destruct (queryHandlers (bus h) !! n).
  - rewrite IH. destruct r as [c handler|c handler|b o]; simpl.
    + unfold registerCommandHandler, bind, gets, throw, modify.
      by destruct (decide _).
    + unfold registerQueryHandler, bind, gets, throw, modify.
      destruct (decide (is_Some (queryHandlers (bus h) !! cname c)))
        as [[x Hx]|Hfree]; simpl.
      * destruct (decide (cname c = n)) as [<-|Hne]; [by rewrite Hx|done].
      * destruct (decide (cname c = n)) as [<-|Hne].
        -- rewrite lookup_insert_eq.
           destruct (queryHandlers (bus h) !! cname c) eqn:E; [|done].
           destruct Hfree. by eexists.
        -- by rewrite lookup_insert_ne.
    + reflexivity.
Qed.

(** No call of the sequence registers a handler for a class named [n]. *)
Lemma firstCommandHandler_none (rs : list Registration) (n : string) :
  (forall c handler, In (RegisterCommandHandler c handler) rs -> cname c <> n) ->
  firstCommandHandler rs n = None.
Proof.
  induction rs as [|r rs IH]; intros Hrs; [reflexivity|].
  assert (Hrest : firstCommandHandler rs n = None).
  { apply IH. intros c handler Hin. apply (Hrs c handler). by right. }
  destruct r as [c handler|c handler|b o]; simpl; try exact Hrest.
  destruct (decide (cname c = n)) as [Heq|_]; [|exact Hrest].
  destruct (Hrs c handler (or_introl eq_refl) Heq).
Qed.

Lemma firstQueryHandler_none (rs : list Registration) (n : string) :
  (forall c handler, In (RegisterQueryHandler c handler) rs -> cname c <> n) ->
  firstQueryHandler rs n = None.
Proof.
  induction rs as [|r rs IH]; intros Hrs; [reflexivity|].
  assert (Hrest : firstQueryHandler rs n = None).
  { apply IH. intros c handler Hin. apply (Hrs c handler). by right. }
  destruct r as [c handler|c handler|b o]; simpl; try exact Hrest.
  destruct (decide (cname c = n)) as [Heq|_]; [|exact Hrest].
  destruct (Hrs c handler (or_introl eq_refl) Heq).
Qed.

(** ** A dispatch without handler *)

(** A command and a query of the class [ShippingCreateOrder], for
    which no handler was ever registered, on a bus on which handlers
    are registered for [BillingCreateOrder], a class of the same name:
    no error is raised, the handler of the other class runs. *)
Lemma C7_unregistered_type_dispatched :
  NameCollision.ShippingCreateOrder <> NameCollision.BillingCreateOrder
  /\ send NameCollision.env (mkRequest NameCollision.ShippingCreateOrder [])
          (startup
             [ RegisterCommandHandler NameCollision.BillingCreateOrder
                 NameCollision.BillingHandler;
               RegisterQueryHandler NameCollision.BillingCreateOrder
                 NameCollision.BillingHandler ]
             (mkHeap newMediatorBus [])) =
     (logged [HandlerReturns (JStr "billing")]
        (startup
           [ RegisterCommandHandler NameCollision.BillingCreateOrder
               NameCollision.BillingHandler;
             RegisterQueryHandler NameCollision.BillingCreateOrder
               NameCollision.BillingHandler ]
           (mkHeap newMediatorBus [])),
      Returned tt)
  /\ query NameCollision.env (mkRequest NameCollision.ShippingCreateOrder [])
           (startup
              [ RegisterCommandHandler NameCollision.BillingCreateOrder
                  NameCollision.BillingHandler;
                RegisterQueryHandler NameCollision.BillingCreateOrder
                  NameCollision.BillingHandler ]
              (mkHeap newMediatorBus [])) =
     (logged [HandlerReturns (JStr "billing")]
        (startup
           [ RegisterCommandHandler NameCollision.BillingCreateOrder
               NameCollision.BillingHandler;
             RegisterQueryHandler NameCollision.BillingCreateOrder
               NameCollision.BillingHandler ]
           (mkHeap newMediatorBus [])),
      Returned (JStr "billing")).
Proof.
  split; [discriminate|]. split; vm_compute; reflexivity.
Qed.

(** C7 (amended). The handler of a request is looked up under the name
    of its class.  A dispatch of a request for whose class name the map
    of the namespace has no handler throws [HandlerNotFoundException]
    carrying that name and the namespace, with a message naming both,
    and leaves the heap, hence both handler maps, as it was; this is
    so on every bus set up by registration calls of which none, in the
    namespace, is for a class of that name.  When the map has a handler
    under the name, the request is dispatched to it, whether the
    handler was registered for the class of the request or for another
    class of that name. *)
Theorem C7_handler_not_found :
  forall (W : Type) (env : Env W) (h : Heap W) (request : Request),
    let requestName := cname (constructor request) in
    (commandHandlers (bus h) !! requestName = None ->
       send env request h =
       (h, Thrown (HandlerNotFoundException requestName Command)))
    /\ (queryHandlers (bus h) !! requestName = None ->
       query env request h =
       (h, Thrown (HandlerNotFoundException requestName Query)))
    /\ HandlerNotFoundException_message requestName Command =
       "No handler registered for command: " +:+ requestName
         +:+ ". Did you forget to add @CommandHandler decorator?"
    /\ HandlerNotFoundException_message requestName Query =
       "No handler registered for query: " +:+ requestName
         +:+ ". Did you forget to add @QueryHandler decorator?"
    /\ (forall (rs : list Registration) (w : W),
          let h0 := startup rs (mkHeap newMediatorBus w) in
          ((forall c handler,
               In (RegisterCommandHandler c handler) rs ->
               cname c <> requestName) ->
           send env request h0 =
           (h0, Thrown (HandlerNotFoundException requestName Command)))
          /\ ((forall c handler,
                  In (RegisterQueryHandler c handler) rs ->
                  cname c <> requestName) ->
              query env request h0 =
              (h0, Thrown (HandlerNotFoundException requestName Query))))
    /\ (forall handlerType : Class,
          commandHandlers (bus h) !! requestName = Some handlerType ->
          send env request h =
          (let* handler := moduleRef_get env handlerType in
           let* pipeline :=
             buildPipeline env request Command (execute handler request) in
           let* _ := pipeline in
           ret tt) h)
    /\ (forall handlerType : Class,
          queryHandlers (bus h) !! requestName = Some handlerType ->
          query env request h =
          (let* handler := moduleRef_get env handlerType in
           let* pipeline :=
             buildPipeline env request Query (execute handler request) in
           pipeline) h).
Proof.
  intros W env h request requestName.
  assert (Hsend : forall h' : Heap W,
             commandHandlers (bus h') !! requestName = None ->
             send env request h' =
             (h', Thrown (HandlerNotFoundException requestName Command))).
  { intros h' Hnone. unfold send, bind, gets. fold requestName.
    by rewrite Hnone. }
  assert (Hquery : forall h' : Heap W,
             queryHandlers (bus h') !! requestName = None ->
             query env request h' =
             (h', Thrown (HandlerNotFoundException requestName Query))).
  { intros h' Hnone. unfold query, bind, gets. fold requestName.
    by rewrite Hnone. }
  refine (conj (Hsend h) (conj (Hquery h)
            (conj eq_refl (conj eq_refl (conj _ (conj _ _)))))).
  - intros rs w h0. split; intros Hrs.
    + apply Hsend. subst h0. rewrite startup_commandHandlers. simpl.
      rewrite lookup_empty. by apply firstCommandHandler_none.
    + apply Hquery. subst h0. rewrite startup_queryHandlers. simpl.
      rewrite lookup_empty. by apply firstQueryHandler_none.
  - intros handlerType Hreg.
    unfold send at 1, bind at 1, gets. fold requestName. by rewrite Hreg.
  - intros handlerType Hreg.
    unfold query at 1, bind at 1, gets. fold requestName. by rewrite Hreg.
Qed.

Lemma C7_handler_not_found_witness :
  send Scenario.env (mkRequest Scenario.Q []) Scenario.started =
  (Scenario.started, Thrown (HandlerNotFoundException "Q" Command))
  /\ query Scenario.env (mkRequest Scenario.A []) Scenario.started =
     (Scenario.started, Thrown (HandlerNotFoundException "A" Query)).
Proof.
  split.
  - refine (proj1 (C7_handler_not_found (list Event) Scenario.env
                     Scenario.started (mkRequest Scenario.Q [])) _).
    vm_compute. reflexivity.
  - refine (proj1 (proj2 (C7_handler_not_found (list Event) Scenario.env
                            Scenario.started (mkRequest Scenario.A []))) _).
    vm_compute. reflexivity.
Defined.

(** ** The first registration of a name *)

(** X3. After any sequence of registration calls on a new bus, the
    handler found for a name is the one of the first call that
    registered a handler for a class of that name in that namespace,
    whatever was registered afterwards, and none when there was no such
    call. *)
Theorem first_registration_wins :
  forall (W : Type) (rs : list Registration) (w : W) (n : string),
    let this := bus (startup rs (mkHeap newMediatorBus w)) in
    commandHandlers this !! n = firstCommandHandler rs n
    /\ queryHandlers this !! n = firstQueryHandler rs n.
Proof.
  intros W rs w n this. subst this.
  by rewrite startup_commandHandlers, startup_queryHandlers.
Qed.

(** X4. When the behaviors registered have pairwise different
    priorities, the list of the bus does not depend on the order of the
    registration calls: two sequences of calls that register the same
    behaviors leave the same list, hence the same chains. *)
Theorem registration_order_irrelevant :
  forall (W : Type) (rs1 rs2 : list Registration) (w1 w2 : W),
    Permutation (registeredBehaviors rs1) (registeredBehaviors rs2) ->
    (forall b1 b2,
        In b1 (registeredBehaviors rs1) -> In b2 (registeredBehaviors rs1) ->
        priorityOf b1 = priorityOf b2 -> b1 = b2) ->
    pipelineBehaviors (bus (startup rs1 (mkHeap newMediatorBus w1))) =
    pipelineBehaviors (bus (startup rs2 (mkHeap newMediatorBus w2))).
Proof.
  intros W rs1 rs2 w1 w2 Hperm Hdistinct.
  rewrite !startup_new_behaviors.
  apply (StronglySorted_unique_strong priorityLe).
  - intros b1 b2 Hb1 Hb2 H12 H21. apply Hdistinct.
    + apply list_elem_of_In.
      by rewrite (sortPriority_Permutation (registeredBehaviors rs1)).
    + apply list_elem_of_In.
      rewrite Hperm.
      by rewrite (sortPriority_Permutation (registeredBehaviors rs2)).
    + unfold priorityLe in *. lia.
  - apply sortPriority_sorted.
  - apply sortPriority_sorted.
  - by rewrite <- !sortPriority_Permutation.
Qed.

Lemma registration_order_irrelevant_witness :
  pipelineBehaviors (bus Scenario.started) =
  pipelineBehaviors (bus Scenario.started').
Proof.
  apply (registration_order_irrelevant (list Event) Scenario.registrations
           Scenario.registrations' [] []).
  - vm_compute. apply perm_trans with
      [ mkRegistered Scenario.B (Scenario.allAt 0);
        mkRegistered Scenario.A (Scenario.allAt (-100));
        mkRegistered Scenario.C (Scenario.allAt 100) ].
    + apply perm_swap.
    + apply perm_trans with
        [ mkRegistered Scenario.B (Scenario.allAt 0);
          mkRegistered Scenario.C (Scenario.allAt 100);
          mkRegistered Scenario.A (Scenario.allAt (-100)) ].
      * apply perm_skip, perm_swap.
      * apply perm_swap.
  - intros b1 b2 H1 H2. vm_compute in H1, H2.
    destruct H1 as [<-|[<-|[<-|[]]]], H2 as [<-|[<-|[<-|[]]]];
      vm_compute; intros Hp; try reflexivity; discriminate.
Defined.

(** X5. [getRegisteredBehaviors] lists the class names of the
    registered behaviors in the order of the chain, that is by
    ascending priority and, within a priority, in the order of
    registration; a class registered several times is listed as many
    times. *)
Theorem getRegisteredBehaviors_after_startup :
  forall (W : Type) (rs : list Registration) (w : W),
    let this := bus (startup rs (mkHeap newMediatorBus w)) in
    getRegisteredBehaviors this =
    map (fun b => cname (type b))
        (sortBy comparePriority (registeredBehaviors rs))
    /\ Permutation (map (fun b => cname (type b)) (registeredBehaviors rs))
                   (getRegisteredBehaviors this)
    /\ length (getRegisteredBehaviors this) = length (registeredBehaviors rs).
Proof.
  intros W rs w this. subst this. unfold getRegisteredBehaviors.
  rewrite startup_new_behaviors. split; [reflexivity|]. split.
  - apply Permutation_map, sortPriority_Permutation.
  - rewrite length_map. symmetry.
    apply Permutation_length, sortPriority_Permutation.
Qed.

(** ** Errors in a chain *)

(** X6. An error thrown by the handler passes through behaviors that
    await [next] without catching: with tracing behaviors around it,
    the dispatch throws the very error of the handler, in the heap the
    handler left, with every entry logged before and no exit logged. *)
Theorem handler_error_propagates :
  forall (env : Env (list Event)) (h h1 : Heap (list Event))
         (request : Request) (handlerType : Class)
         (f : Request -> M (Heap (list Event)) JsValue) (e : Exception),
    moduleRef env handlerType = Some (Handler f) ->
    (forall k b, In b (applicableBehaviors env (bus h) request k) ->
                 moduleRef env (type b) =
                 Some (Behavior (tracingHandle (type b)))) ->
    (queryHandlers (bus h) !! cname (constructor request) = Some handlerType ->
     f request
       (logged (map Enter (map type
                  (applicableBehaviors env (bus h) request Query))) h) =
     (h1, Thrown e) ->
     query env request h = (h1, Thrown e))
    /\ (commandHandlers (bus h) !! cname (constructor request)
          = Some handlerType ->
        f request
          (logged (map Enter (map type
                     (applicableBehaviors env (bus h) request Command))) h) =
        (h1, Thrown e) ->
        send env request h = (h1, Thrown e)).
Proof.
  intros env h h1 request handlerType f e Hhandler Hbs. split.
  - intros Hreg Hrun. unfold query, bind at 1, gets. rewrite Hreg.
    unfold bind at 1, moduleRef_get. rewrite Hhandler. unfold ret at 1.
    unfold bind at 1. rewrite buildPipeline_run. simpl execute.
    by rewrite (tracing_chain_thrown env request (f request) _
                  (Hbs Query) h h1 e Hrun).
  - intros Hreg Hrun. unfold send, bind at 1, gets. rewrite Hreg.
    unfold bind at 1, moduleRef_get. rewrite Hhandler. unfold ret at 1.
    unfold bind at 1. rewrite buildPipeline_run. unfold bind. simpl execute.
    by rewrite (tracing_chain_thrown env request (f request) _
                  (Hbs Command) h h1 e Hrun).
Qed.

Lemma handler_error_propagates_witness :
  query FailingScenario.env (mkRequest Scenario.Q []) Scenario.started =
  (logged [Enter Scenario.A; Enter Scenario.B; Enter Scenario.C]
          Scenario.started,
   Thrown (Error "boom")).
Proof.
  apply (handler_error_propagates FailingScenario.env Scenario.started
           (logged [Enter Scenario.A; Enter Scenario.B; Enter Scenario.C]
                   Scenario.started)
           (mkRequest Scenario.Q []) Scenario.QHandler
           FailingScenario.throwingExecute (Error "boom")).
  - vm_compute. reflexivity.
  - intros k b Hb. destruct k; vm_compute in Hb;
      destruct Hb as [<-|[<-|[<-|[]]]]; vm_compute; reflexivity.
  - vm_compute. reflexivity.
  - vm_compute. reflexivity.
Defined.

(** * The exception-handling behavior *)

Section ExceptionHandlingFacts.
Import ExceptionHandlingBehavior.
Context {St : Type} (getThis : St -> Fields).

Lemma tryHandlers_none (handlers : list IExceptionHandler) (e : Exception)
    (request : JsValue) :
  Forall (fun hd => canHandle hd e = false) handlers ->
  tryHandlers handlers e request = Returned e.
Proof.
  induction 1 as [|hd handlers Hhd _ IH]; simpl; [reflexivity|].
  by rewrite Hhd.
Qed.

Lemma tryHandlers_first (l1 l2 : list IExceptionHandler)
    (hd : IExceptionHandler) (e : Exception) (request : JsValue) :
  Forall (fun hd' => canHandle hd' e = false) l1 ->
  canHandle hd e = true ->
  tryHandlers (l1 ++ hd :: l2) e request = handleError hd e request.
Proof.
  induction 1 as [|hd' l1 Hhd' _ IH]; intros Hhd; simpl.
  - by rewrite Hhd.
  - rewrite Hhd'. by apply IH.
Qed.
End ExceptionHandlingFacts.

(** X7. The exception-handling behavior never swallows an error and
    never makes one: it returns exactly when the continuation returns,
    with the same value, and it throws whenever the continuation
    throws.  When the continuation returns, no exception handler is
    asked and [handle] is the continuation itself: the heap is the one
    that the continuation left. *)
Theorem exception_handling_never_swallows :
  forall (St : Type) (getThis : St -> ExceptionHandlingBehavior.Fields)
         (request : JsValue) (next : M St JsValue) (s : St),
    (forall v,
        (ExceptionHandlingBehavior.handle getThis request next s).2
          = Returned v
        <-> (next s).2 = Returned v)
    /\ (forall e,
          (next s).2 = Thrown e ->
          exists e',
            (ExceptionHandlingBehavior.handle getThis request next s).2
              = Thrown e')
    /\ (forall v,
          (next s).2 = Returned v ->
          ExceptionHandlingBehavior.handle getThis request next s = next s).
Proof.
  intros St getThis request next s.
  unfold ExceptionHandlingBehavior.handle.
  destruct (next s) as [s' [v|e]]; simpl.
  - split; [done|]. split; [|reflexivity]. intros e He. discriminate.
  - destruct (ExceptionHandlingBehavior.processException (getThis s') e request)
      as [e'|e']; simpl; (split; [done|]);
      (split; [intros e0 _; by eexists|intros v Hv; discriminate]).
Qed.

Lemma exception_handling_never_swallows_witness :
  (exists e' : Exception,
      (ExceptionHandlingBehavior.handle (fun s => s) JNull
         (ExceptionExample.failingNext (Error "boom"))
         ExceptionExample.behavior).2 = Thrown e')
  /\ ExceptionHandlingBehavior.handle (fun s => s) JNull (ret (JNum 1))
       ExceptionExample.behavior =
     (ExceptionExample.behavior, Returned (JNum 1)).
Proof.
  split.
  - apply (proj1 (proj2 (exception_handling_never_swallows
                           ExceptionHandlingBehavior.Fields
                           (fun s => s) JNull
                           (ExceptionExample.failingNext (Error "boom"))
                           ExceptionExample.behavior))
                 (Error "boom")).
    reflexivity.
  - apply (proj2 (proj2 (exception_handling_never_swallows
                           ExceptionHandlingBehavior.Fields
                           (fun s => s) JNull (ret (JNum 1))
                           ExceptionExample.behavior))
                 (JNum 1)).
    reflexivity.
Defined.

(** X8. When the continuation throws [e], the error thrown to the
    caller is decided by the first registered handler whose [canHandle]
    accepts [e]: it is the error that this handler returns (or throws);
    the handlers behind it are not asked.  When no handler accepts [e],
    and so when none is registered, the error thrown is [e] itself. *)
Theorem exception_handling_first_match :
  forall (St : Type) (getThis : St -> ExceptionHandlingBehavior.Fields)
         (request : JsValue) (next : M St JsValue) (s s' : St)
         (e : Exception),
    next s = (s', Thrown e) ->
    (forall l1 hd l2,
        ExceptionHandlingBehavior.exceptionHandlers (getThis s')
          = l1 ++ hd :: l2 ->
        Forall (fun hd' => ExceptionHandlingBehavior.canHandle hd' e = false)
               l1 ->
        ExceptionHandlingBehavior.canHandle hd e = true ->
        ExceptionHandlingBehavior.handle getThis request next s =
        (s', Thrown
               match ExceptionHandlingBehavior.handleError hd e request with
               | Returned processedError => processedError
               | Thrown thrown => thrown
               end))
    /\ (Forall (fun hd => ExceptionHandlingBehavior.canHandle hd e = false)
               (ExceptionHandlingBehavior.exceptionHandlers (getThis s')) ->
        ExceptionHandlingBehavior.handle getThis request next s =
        (s', Thrown e)).
Proof.
  intros St getThis request next s s' e Hnext. split.
  - intros l1 hd l2 Hlist Hl1 Hhd.
    unfold ExceptionHandlingBehavior.handle,
      ExceptionHandlingBehavior.processException.
    rewrite Hnext, Hlist, (tryHandlers_first l1 l2 hd e request Hl1 Hhd).
    by destruct (ExceptionHandlingBehavior.handleError hd e request).
  - intros Hnone.
    unfold ExceptionHandlingBehavior.handle,
      ExceptionHandlingBehavior.processException.
    by rewrite Hnext, (tryHandlers_none _ e request Hnone).
Qed.

Lemma exception_handling_first_match_witness :
  ExceptionHandlingBehavior.handle (fun s => s) JNull
    (ExceptionExample.failingNext (HandlerNotFoundException "Q" Query))
    ExceptionExample.behavior =
  (ExceptionExample.behavior, Thrown (Error "no such request"))
  /\ ExceptionHandlingBehavior.handle (fun s => s) JNull
       (ExceptionExample.failingNext (Error "boom"))
       ExceptionHandlingBehavior.newExceptionHandlingBehavior =
     (ExceptionHandlingBehavior.newExceptionHandlingBehavior,
      Thrown (Error "boom")).
Proof.
  split.
  - apply (proj1 (exception_handling_first_match
                    ExceptionHandlingBehavior.Fields (fun s => s) JNull
                    (ExceptionExample.failingNext
                       (HandlerNotFoundException "Q" Query))
                    ExceptionExample.behavior ExceptionExample.behavior
                    (HandlerNotFoundException "Q" Query) eq_refl)
                 [] ExceptionExample.notFoundHandler
                 [ExceptionExample.catchAllHandler]).
    + reflexivity.
    + constructor.
    + reflexivity.
  - apply (proj2 (exception_handling_first_match
                    ExceptionHandlingBehavior.Fields (fun s => s) JNull
                    (ExceptionExample.failingNext (Error "boom"))
                    ExceptionHandlingBehavior.newExceptionHandlingBehavior
                    ExceptionHandlingBehavior.newExceptionHandlingBehavior
                    (Error "boom") eq_refl)).
    constructor.
Defined.

(** X9. [registerExceptionHandler] adds the handler behind those
    already registered: an error that one of the earlier handlers
    accepts is processed as before, and the new handler is asked only
    about the errors that none of them accepts. *)
Theorem exception_handler_registration_order :
  forall (this : ExceptionHandlingBehavior.Fields)
         (handler : ExceptionHandlingBehavior.IExceptionHandler)
         (e : Exception) (request : JsValue),
    (existsb (fun hd => ExceptionHandlingBehavior.canHandle hd e)
             (ExceptionHandlingBehavior.exceptionHandlers this) = true ->
     ExceptionHandlingBehavior.processException
       (ExceptionHandlingBehavior.registerExceptionHandler handler this)
       e request =
     ExceptionHandlingBehavior.processException this e request)
    /\ (existsb (fun hd => ExceptionHandlingBehavior.canHandle hd e)
                (ExceptionHandlingBehavior.exceptionHandlers this) = false ->
        ExceptionHandlingBehavior.processException
          (ExceptionHandlingBehavior.registerExceptionHandler handler this)
          e request =
        if ExceptionHandlingBehavior.canHandle handler e
        then ExceptionHandlingBehavior.handleError handler e request
        else Returned e).
Proof.
  intros [handlers] handler e request.
  unfold ExceptionHandlingBehavior.processException,
    ExceptionHandlingBehavior.registerExceptionHandler. simpl.
  induction handlers as [|hd handlers [IH1 IH2]]; simpl.
  - split; [discriminate|reflexivity].
  - destruct (ExceptionHandlingBehavior.canHandle hd e); simpl.
    + split; [reflexivity|discriminate].
    + by split.
Qed.

Lemma exception_handler_registration_order_witness :
  ExceptionHandlingBehavior.processException ExceptionExample.behavior
    (HandlerNotFoundException "Q" Query) JNull =
  ExceptionHandlingBehavior.processException
    (ExceptionHandlingBehavior.registerExceptionHandler
       ExceptionExample.notFoundHandler
       ExceptionHandlingBehavior.newExceptionHandlingBehavior)
    (HandlerNotFoundException "Q" Query) JNull.
Proof.
  apply (exception_handler_registration_order
           (ExceptionHandlingBehavior.registerExceptionHandler
              ExceptionExample.notFoundHandler
              ExceptionHandlingBehavior.newExceptionHandlingBehavior)
           ExceptionExample.catchAllHandler
           (HandlerNotFoundException "Q" Query) JNull).
  reflexivity.
Defined.

(** * Validation *)

(** ** The exception *)

(** X10. On the errors of a validation exception,
    [hasErrorForProperty] answers whether [getErrorsForProperty] finds
    anything; what the latter returns are the errors of that property,
    all of them, in the order of the list. *)
Theorem errors_for_property :
  forall (errors : list ValidationError) (property : string),
    (hasErrorForProperty errors property = true
     <-> getErrorsForProperty errors property <> [])
    /\ Forall (fun e => ve_property e = property)
              (getErrorsForProperty errors property)
    /\ (forall e, In e errors -> ve_property e = property ->
                  In e (getErrorsForProperty errors property))
    /\ sublist (getErrorsForProperty errors property) errors.
Proof.
  intros errors property. unfold hasErrorForProperty, getErrorsForProperty.
  refine (conj _ (conj _ (conj _ _))).
  - induction errors as [|e errors IH]; simpl; [done|].
    destruct (bool_decide (ve_property e = property)); simpl; [done|exact IH].
  - apply List.Forall_forall. intros e He.
    apply List.filter_In in He as [_ He]. by apply bool_decide_eq_true in He.
  - intros e He Hp. apply List.filter_In. split; [exact He|].
    by apply bool_decide_eq_true.
  - induction errors as [|e errors IH]; simpl; [constructor|].
    destruct (bool_decide _); by constructor.
Qed.

Lemma string_append_assoc (s1 s2 s3 : string) :
  (s1 +:+ s2) +:+ s3 = s1 +:+ (s2 +:+ s3).
Proof.
  induction s1 as [|a s1 IH]; [reflexivity|].
  change (String a ((s1 +:+ s2) +:+ s3) = String a (s1 +:+ s2 +:+ s3)).
  by rewrite IH.
Qed.

Lemma string_prefix_append (s t : string) : String.prefix s (s +:+ t) = true.
Proof.
  induction s as [|a s IH]; [by destruct t|].
  change (String.prefix (String a s) (String a (s +:+ t)) = true).
  simpl. destruct (Ascii.ascii_dec a a); [exact IH|done].
Qed.

(** X11. The message of a validation exception begins with
    [Validation failed], however many errors there are; with no error
    it is that text alone, and with several it gives their number. *)
Theorem formatMessage_prefix :
  forall errors : list ValidationError,
    String.prefix "Validation failed" (formatMessage errors) = true
    /\ (formatMessage errors = "Validation failed" <-> errors = [])
    /\ (2 <= length errors ->
        String.prefix
          ("Validation failed with " +:+ pretty (length errors) +:+ " errors: ")
          (formatMessage errors) = true)%nat.
Proof.
  intros [|e1 [|e2 errors]].
  - split; [reflexivity|]. split; [done|]. simpl. lia.
  - split; [reflexivity|]. split; [split; discriminate|]. simpl. lia.
  - split; [reflexivity|]. split; [split; discriminate|]. intros _.
    unfold formatMessage.
    set (n := pretty (length (e1 :: e2 :: errors))).
    set (msgs := String.concat _ _).
    replace ("Validation failed with " +:+ n +:+ " errors: " +:+ msgs)
      with (("Validation failed with " +:+ n +:+ " errors: ") +:+ msgs)
      by (by rewrite !string_append_assoc).
    apply string_prefix_append.
Qed.

Lemma formatMessage_prefix_witness :
  String.prefix "Validation failed with 2 errors: "
    (formatMessage
       [ mkValidationError "email" "email must be an email" None None None;
         mkValidationError "name" "name is too short" None None None ])
  = true.
Proof.
  apply (formatMessage_prefix
           [ mkValidationError "email" "email must be an email" None None None;
             mkValidationError "name" "name is too short" None None None ]).
  simpl. lia.
Defined.

(** ** From class-validator errors to validation errors *)

Section TransformFacts.
Import ValidationBehavior.

(** Induction on a class-validator error and the errors nested in it. *)
Lemma ClassValidatorError_nested_ind (P : ClassValidatorError -> Prop) :
  (forall p v cs, P (mkClassValidatorError p v cs None)) ->
  (forall p v cs ch, Forall P ch -> P (mkClassValidatorError p v cs (Some ch))) ->
  forall error, P error.
Proof.
  intros Hnone Hsome. fix IH 1. intros [p v cs [ch|]].
  - apply Hsome. induction ch as [|e ch IHch]; constructor.
    + apply IH.
    + exact IHch.
  - apply Hnone.
Qed.

Lemma transformClassValidatorError_length (error : ClassValidatorError) :
  length (transformClassValidatorError error) = messageCount error.
Proof.
  induction error as [p v cs|p v cs ch IH] using ClassValidatorError_nested_ind.
  - simpl. rewrite app_nil_r.
    destruct cs; simpl; [rewrite length_map|]; lia.
  - simpl. rewrite length_app. f_equal.
    + destruct cs; simpl; [by rewrite length_map|reflexivity].
    + destruct ch as [|e ch]; [reflexivity|].
      change (0 <? length (e :: ch))%nat with true. cbv iota.
      rewrite length_map.
      induction IH as [|e' ch' He' _ IH']; simpl; [reflexivity|].
      by rewrite length_app, He', IH'.
Qed.

Lemma withProperty_flat (p : string) (e : ValidationError) :
  ve_code (withProperty p e) = ve_code e
  /\ ve_children (withProperty p e) = ve_children e
  /\ ve_value (withProperty p e) = ve_value e
  /\ ve_property (withProperty p e) = p.
Proof. by destruct e. Qed.

Lemma transformClassValidatorError_shape (error : ClassValidatorError) :
  Forall (fun e =>
            ve_code e = None /\ ve_children e = None
            /\ (exists v, ve_value e = Some v)
            /\ (ve_property e = cve_property error
                \/ String.prefix (cve_property error +:+ ".") (ve_property e)
                   = true))
         (transformClassValidatorError error).
Proof.
  induction error as [p v cs|p v cs ch IH] using ClassValidatorError_nested_ind.
  - simpl. rewrite app_nil_r. destruct cs as [cs|]; [|constructor].
    apply List.Forall_forall. intros e He. apply List.in_map_iff in He as (c & <- & _).
    simpl. eauto 6.
  - simpl. apply Forall_app. split.
    + destruct cs as [cs|]; [|constructor].
      apply List.Forall_forall. intros e He.
      apply List.in_map_iff in He as (c & <- & _). simpl. eauto 6.
    + destruct ch as [|e0 ch0]; [constructor|].
      change (0 <? length (e0 :: ch0))%nat with true. cbv iota.
      apply List.Forall_forall. intros e He.
      apply List.in_map_iff in He as (child & <- & Hchild).
      apply List.in_flat_map in Hchild as (e' & He' & Hchild).
      rewrite List.Forall_forall in IH. specialize (IH e' He').
      rewrite List.Forall_forall in IH.
      destruct (IH child Hchild) as (Hcode & Hch & Hval & _).
      destruct (withProperty_flat (p +:+ "." +:+ ve_property child) child)
        as (-> & -> & -> & ->).
      refine (conj Hcode (conj Hch (conj Hval _))). right. simpl.
      rewrite <- string_append_assoc. apply string_prefix_append.
Qed.
End TransformFacts.

(** X12. [transformClassValidatorErrors] turns every constraint message
    of every error, at any depth of nesting, into exactly one
    validation error: the length of its result is the number of
    messages, so errors without a message contribute nothing. *)
Theorem transform_counts_messages :
  forall errors : list ValidationBehavior.ClassValidatorError,
    length (ValidationBehavior.transformClassValidatorErrors errors) =
    list_sum (map messageCount errors)
    /\ (ValidationBehavior.transformClassValidatorErrors errors = []
        <-> Forall (fun error => messageCount error = 0%nat) errors).
Proof.
  intros errors.
  assert (Hlen : length (ValidationBehavior.transformClassValidatorErrors errors)
                 = list_sum (map messageCount errors)).
  { unfold ValidationBehavior.transformClassValidatorErrors.
    induction errors as [|e errors IH]; simpl; [reflexivity|].
    by rewrite length_app, transformClassValidatorError_length, IH. }
  split; [exact Hlen|].
  rewrite <- length_zero_iff_nil, Hlen. clear Hlen.
  induction errors as [|e errors IH]; simpl.
  - split; [constructor|reflexivity].
  - rewrite Forall_cons. rewrite <- IH. lia.
Qed.

(** X13. The result of the transformation is flat and carries paths: a
    validation error made from a class-validator error has no code and
    no children, has a value, and its property is the property of that
    error or begins with it followed by a dot. *)
Theorem transform_flat_with_paths :
  forall error : ValidationBehavior.ClassValidatorError,
    Forall (fun e =>
              ve_code e = None /\ ve_children e = None
              /\ (exists v, ve_value e = Some v)
              /\ (ve_property e = cve_property error
                  \/ String.prefix (cve_property error +:+ ".")
                                   (ve_property e) = true))
           (ValidationBehavior.transformClassValidatorErrors [error]).
Proof.
  intros error. unfold ValidationBehavior.transformClassValidatorErrors.
  simpl. rewrite app_nil_r. apply transformClassValidatorError_shape.
Qed.

(** ** Loading class-validator and validating *)

(** X14. A validation behavior looks for class-validator once: after
    its first validation the outcome of the import is stored in its
    fields, and every later validation uses what was stored, whatever
    an import would give then, and leaves the fields as they are. *)
Theorem class_validator_loaded_once :
  forall (importClassValidator importLater :
            option ValidationBehavior.ClassValidatorModule)
         (this : ValidationBehavior.Fields) (first later : Request),
    let this1 :=
      (ValidationBehavior.validateRequest importClassValidator this first).1 in
    ValidationBehavior.classValidatorAvailable this1 <> None
    /\ ValidationBehavior.validateRequest importLater this1 later =
       ValidationBehavior.validateRequest importClassValidator this1 later
    /\ (ValidationBehavior.validateRequest importLater this1 later).1 = this1.
Proof.
  intros imp imp' this first later this1.
  assert (Hfst : forall i t r,
             (ValidationBehavior.validateRequest i t r).1 =
             ValidationBehavior.loadClassValidator i t).
  { intros i t r. unfold ValidationBehavior.validateRequest.
    by destruct
         (ValidationBehavior.validateFn
            (ValidationBehavior.loadClassValidator i t)),
         (ValidationBehavior.getMetadataStorageFn
            (ValidationBehavior.loadClassValidator i t)). }
  assert (Havail : ValidationBehavior.classValidatorAvailable this1 <> None).
  { subst this1. rewrite Hfst. unfold ValidationBehavior.loadClassValidator.
    destruct (ValidationBehavior.classValidatorAvailable this) eqn:E.
    - by rewrite E.
    - by destruct imp. }
  assert (Hload : forall i, ValidationBehavior.loadClassValidator i this1 = this1).
  { intros i. unfold ValidationBehavior.loadClassValidator.
    by destruct (ValidationBehavior.classValidatorAvailable this1). }
  refine (conj Havail (conj _ _)).
  - unfold ValidationBehavior.validateRequest. by rewrite !Hload.
  - by rewrite Hfst, Hload.
Qed.

(** X15. Without class-validator the validation behavior validates
    nothing: when a behavior that has not looked yet finds that the
    import fails, or that the module lacks [validate] or
    [getMetadataStorage], [handle] stores that and calls the
    continuation, for every request object. *)
Theorem validation_without_class_validator :
  forall (St : Type) (getThis : St -> ValidationBehavior.Fields)
         (setThis : ValidationBehavior.Fields -> St -> St)
         (importClassValidator : option ValidationBehavior.ClassValidatorModule)
         (next : M St JsValue) (s : St) (c : Class)
         (ps : list (string * JsValue)),
    ValidationBehavior.classValidatorAvailable (getThis s) = None ->
    (importClassValidator = None
     \/ exists m, importClassValidator = Some m
                  /\ (ValidationBehavior.validate m = None
                      \/ ValidationBehavior.getMetadataStorage m = None)) ->
    ValidationBehavior.handle importClassValidator getThis setThis
      (JObject c ps) next s =
    next (setThis (ValidationBehavior.loadClassValidator importClassValidator
                     (getThis s)) s).
Proof.
  intros St getThis setThis imp next s c ps Hfresh Himp.
  unfold ValidationBehavior.handle, bind, ValidationBehavior.validateRequest.
  unfold ValidationBehavior.loadClassValidator. rewrite Hfresh.
  destruct Himp as [->|(m & -> & [Hm|Hm])]; simpl.
  - reflexivity.
  - by rewrite Hm.
  - rewrite Hm. by destruct (ValidationBehavior.validate m).
Qed.

Lemma validation_without_class_validator_witness :
  ValidationBehavior.handle None ValidationExample.getThis
    ValidationExample.setThis ValidationExample.badCommand
    ValidationExample.countingNext
    (ValidationBehavior.newValidationBehavior, 0%nat) =
  (({| ValidationBehavior.classValidatorAvailable := Some false;
       ValidationBehavior.validateFn := None;
       ValidationBehavior.getMetadataStorageFn := None |}, 1%nat),
   Returned (JStr "handled")).
Proof.
  apply (validation_without_class_validator
           (ValidationBehavior.Fields * nat) ValidationExample.getThis
           ValidationExample.setThis None ValidationExample.countingNext
           (ValidationBehavior.newValidationBehavior, 0%nat)
           ValidationExample.CreateUserCommand [("email", JStr "invalid")]).
  - reflexivity.
  - left. reflexivity.
Defined.

(** X16. A validation yields errors exactly when everything went
    through: class-validator is loaded with both functions, the
    metadata storage is obtained, it has metadata for the class of the
    request, [validate] returns, and the transformed list is not empty.
    A throw anywhere, no metadata, or errors without messages give no
    error, and [handle] then calls the continuation. *)
Theorem validation_rejects_exactly_when :
  forall (importClassValidator : option ValidationBehavior.ClassValidatorModule)
         (this : ValidationBehavior.Fields) (request : Request)
         (errors : list ValidationError),
    let this' :=
      ValidationBehavior.loadClassValidator importClassValidator this in
    (ValidationBehavior.validateRequest importClassValidator this request).2
      = errors /\ errors <> []
    <->
    exists validateFn' getMetadataStorageFn' metadataStorage found
           classValidatorErrors,
      ValidationBehavior.validateFn this' = Some validateFn'
      /\ ValidationBehavior.getMetadataStorageFn this'
         = Some getMetadataStorageFn'
      /\ getMetadataStorageFn' tt = Returned metadataStorage
      /\ ValidationBehavior.getTargetValidationMetadatas metadataStorage
           (constructor request) (cname (constructor request)) true false
         = Returned (Some found)
      /\ found <> []
      /\ validateFn' request = Returned classValidatorErrors
      /\ errors =
         ValidationBehavior.transformClassValidatorErrors classValidatorErrors
      /\ errors <> [].
Proof.
  intros imp this request errors this'.
  unfold ValidationBehavior.validateRequest. fold this'.
  assert (Hnone : forall P : Prop, (P -> False) -> ([] = errors /\ errors <> [] <-> P)).
  { intros P HP. split; [intros [<- Hne]; done|]. intros HP'. by destruct HP. }
  destruct (ValidationBehavior.validateFn this') as [vf|] eqn:Hvf;
    destruct (ValidationBehavior.getMetadataStorageFn this') as [gm|] eqn:Hgm;
    simpl.
  2-4: apply Hnone;
       intros (vf' & gm' & ms' & found' & cv' & Hvf' & Hgm' & _); congruence.
  unfold ValidationBehavior.bindOutcome.
  destruct (gm tt) as [ms|e1] eqn:Hms.
  2: { apply Hnone.
       intros (vf' & gm' & ms' & found' & cv' & Hvf' & Hgm' & Hms' & _).
       congruence. }
  destruct (ValidationBehavior.getTargetValidationMetadatas ms _ _ _ _)
    as [[found|]|e2] eqn:Hfound; simpl.
  2-3: apply Hnone;
       intros (vf' & gm' & ms' & found' & cv' & Hvf' & Hgm' & Hms' & Hfound'
               & _); congruence.
  destruct found as [|md found]; simpl.
  { apply Hnone.
    intros (vf' & gm' & ms' & found' & cv' & Hvf' & Hgm' & Hms' & Hfound'
            & Hne' & _).
    congruence. }
  destruct (vf request) as [cvErrors|e3] eqn:Hvalidate.
  2: { apply Hnone.
       intros (vf' & gm' & ms' & found' & cv' & Hvf' & Hgm' & Hms' & Hfound'
               & Hne' & Hvalidate' & _).
       congruence. }
  split.
  - intros [<- Hne]. exists vf, gm, ms, (md :: found), cvErrors.
    repeat split; done.
  - intros (vf' & gm' & ms' & found' & cv' & Hvf' & Hgm' & Hms' & Hfound'
            & Hne' & Hvalidate' & -> & Hne).
    split; [|exact Hne]. f_equal. congruence.
Qed.

Lemma validation_rejects_exactly_when_witness :
  (ValidationBehavior.validateRequest (Some ValidationExample.classValidator)
     ValidationBehavior.newValidationBehavior
     (mkRequest ValidationExample.CreateUserCommand
                [("email", JStr "invalid")])).2 =
  [ mkValidationError "email" "email must be an email" None
      (Some (JStr "invalid")) None;
    mkValidationError "profile.name" "name is too short" None
      (Some (JStr "a")) None ]
  /\ [ mkValidationError "email" "email must be an email" None
         (Some (JStr "invalid")) None;
       mkValidationError "profile.name" "name is too short" None
         (Some (JStr "a")) None ] <> [].
Proof.
  apply (proj2 (validation_rejects_exactly_when
                  (Some ValidationExample.classValidator)
                  ValidationBehavior.newValidationBehavior
                  (mkRequest ValidationExample.CreateUserCommand
                             [("email", JStr "invalid")])
                  _)).
  eexists _, _, _, _, _.
  split; [reflexivity|]. split; [reflexivity|]. split; [reflexivity|].
  split; [vm_compute; reflexivity|]. split; [discriminate|].
  split; [reflexivity|]. split; [vm_compute; reflexivity|]. discriminate.
Defined.

(** * Decorators *)

(** X17. The skip decorators replace, they do not add: after
    [@SkipBehavior] has been applied twice to a class, the skip-list of
    its requests is the argument of the later application alone, so a
    behavior named only by the earlier one is no longer skipped; and
    [@SkipBehavior] with an array is [@SkipBehaviors]. *)
Theorem skip_decorators_replace :
  forall (W : Type) (moduleRef_ : Class -> option (Instance W))
         (earlier later : Class + list Class) (target : Class)
         (metadata : gmap Class (list Class)) (ps : list (string * JsValue)),
    let listOf (b : Class + list Class) :=
      match b with inl c => [c] | inr cs => cs end in
    let env :=
      mkEnv moduleRef_
            (SkipBehavior later target (SkipBehavior earlier target metadata)) in
    SkipBehavior later target (SkipBehavior earlier target metadata) =
    SkipBehavior later target metadata
    /\ behaviorsToSkip env (mkRequest target ps) = listOf later
    /\ (forall cs, SkipBehavior (inr cs) target metadata =
                   SkipBehaviors cs target metadata)
    /\ (forall (k : RequestKind) (b : RegisteredBehavior),
          In (type b) (listOf earlier) -> ~ In (type b) (listOf later) ->
          scope (options b) = None \/ scope (options b) = Some ScopeAll ->
          isApplicable env (mkRequest target ps) k b = true).
Proof.
  intros W moduleRef_ earlier later target metadata ps listOf env.
  assert (Hskip : behaviorsToSkip env (mkRequest target ps) = listOf later).
  { subst env. unfold behaviorsToSkip. cbn [skipMetadata constructor].
    by rewrite SkipBehavior_lookup. }
  refine (conj _ (conj Hskip (conj _ _))).
  - unfold SkipBehavior. apply insert_insert_eq.
  - reflexivity.
  - intros k b _ Hlater Hscope. apply isApplicable_all; [exact Hscope|].
    by rewrite Hskip.
Qed.

Lemma skip_decorators_replace_witness :
  isApplicable
    (mkEnv (moduleRef Scenario.env)
           (SkipBehavior (inl Scenario.C) Scenario.Q
              (SkipBehavior (inl Scenario.B) Scenario.Q ∅)))
    (mkRequest Scenario.Q []) Query
    (mkRegistered Scenario.B (Scenario.allAt 0)) = true.
Proof.
  apply (skip_decorators_replace (list Event) (moduleRef Scenario.env)
           (inl Scenario.B) (inl Scenario.C) Scenario.Q ∅ []).
  - simpl. left. reflexivity.
  - simpl. intros [H|[]]. discriminate.
  - right. reflexivity.
Defined.

(** * The earlier bus *)

(** X18. The bus with pipelines extends the earlier bus: for a request
    with a registered handler and no applicable behavior, [send] and
    [query] do what they did before; for a request without handler
    both throw in the unchanged heap, now a [HandlerNotFoundException]
    and before a plain [Error], with the same message. *)
Theorem pipeline_bus_extends_legacy :
  forall (W : Type) (env : Env W) (h : Heap W) (request : Request),
    let requestName := cname (constructor request) in
    (is_Some (commandHandlers (bus h) !! requestName) ->
     applicableBehaviors env (bus h) request Command = [] ->
     send env request h = Legacy.send env request h)
    /\ (is_Some (queryHandlers (bus h) !! requestName) ->
        applicableBehaviors env (bus h) request Query = [] ->
        query env request h = Legacy.query env request h)
    /\ (commandHandlers (bus h) !! requestName = None ->
        send env request h =
        (h, Thrown (HandlerNotFoundException requestName Command))
        /\ Legacy.send env request h =
           (h, Thrown (Error (HandlerNotFoundException_message
                                requestName Command))))
    /\ (queryHandlers (bus h) !! requestName = None ->
        query env request h =
        (h, Thrown (HandlerNotFoundException requestName Query))
        /\ Legacy.query env request h =
           (h, Thrown (Error (HandlerNotFoundException_message
                                requestName Query)))).
Proof.
  intros W env h request requestName.
  refine (conj _ (conj _ (conj _ _))).
  - intros [handlerType Hreg] Hnone.
    unfold send, Legacy.send, bind at 1 5, gets. fold requestName.
    rewrite Hreg. unfold bind at 1 4, moduleRef_get.
    destruct (moduleRef env handlerType) as [handler|]; [|reflexivity].
    unfold ret at 1 3. unfold bind at 1. by rewrite buildPipeline_run, Hnone.
  - intros [handlerType Hreg] Hnone.
    unfold query, Legacy.query, bind at 1 4, gets. fold requestName.
    rewrite Hreg. unfold bind at 1 3, moduleRef_get.
    destruct (moduleRef env handlerType) as [handler|]; [|reflexivity].
    unfold ret at 1 2. unfold bind at 1. by rewrite buildPipeline_run, Hnone.
  - intros Hnone. split; [by apply send_not_found|].
    unfold Legacy.send, bind, gets. fold requestName. by rewrite Hnone.
  - intros Hnone. split; [by apply query_not_found|].
    unfold Legacy.query, bind, gets. fold requestName. by rewrite Hnone.
Qed.

Lemma pipeline_bus_extends_legacy_witness :
  send NameCollision.env (mkRequest NameCollision.BillingCreateOrder [])
       NameCollision.started =
  Legacy.send NameCollision.env (mkRequest NameCollision.BillingCreateOrder [])
              NameCollision.started
  /\ Legacy.query NameCollision.env
       (mkRequest NameCollision.BillingCreateOrder []) NameCollision.started =
     (NameCollision.started,
      Thrown (Error "No handler registered for query: CreateOrder. Did you forget to add @QueryHandler decorator?")).
Proof.
  split.
  - apply (pipeline_bus_extends_legacy (list Event) NameCollision.env
             NameCollision.started
             (mkRequest NameCollision.BillingCreateOrder [])).
    + vm_compute. by eexists.
    + vm_compute. reflexivity.
  - apply (pipeline_bus_extends_legacy (list Event) NameCollision.env
             NameCollision.started
             (mkRequest NameCollision.BillingCreateOrder [])).
    vm_compute. reflexivity.
Defined.

(** * Discovery at startup *)

Section OnModuleInitFacts.
Import NestMediatorModule.
Context {W : Type} (metadata : Metadata).
Implicit Types (h : Heap W) (wrapper : InstanceWrapper).

(** What one registration call leaves of the heap. *)
Lemma registerCommandHandler_cases h (c handler : Class) :
  (is_Some (commandHandlers (bus h) !! cname c)
   /\ exists e, registerCommandHandler c handler h = (h, Thrown e))
  \/ (commandHandlers (bus h) !! cname c = None
      /\ registerCommandHandler c handler h =
         (setCommandHandlers (<[cname c := handler]> (commandHandlers (bus h))) h,
          Returned tt)).
Proof.
  destruct (commandHandlers (bus h) !! cname c) as [x|] eqn:E.
  - left. split; [by eexists|]. eexists.
    by apply (registerCommandHandler_taken h c handler x).
  - right. split; [reflexivity|]. by apply registerCommandHandler_free.
Qed.

Lemma registerQueryHandler_cases h (c handler : Class) :
  (is_Some (queryHandlers (bus h) !! cname c)
   /\ exists e, registerQueryHandler c handler h = (h, Thrown e))
  \/ (queryHandlers (bus h) !! cname c = None
      /\ registerQueryHandler c handler h =
         (setQueryHandlers (<[cname c := handler]> (queryHandlers (bus h))) h,
          Returned tt)).
Proof.
  destruct (queryHandlers (bus h) !! cname c) as [x|] eqn:E.
  - left. split; [by eexists|]. eexists.
    by apply (registerQueryHandler_taken h c handler x).
  - right. split; [reflexivity|]. by apply registerQueryHandler_free.
Qed.

Lemma extends_refl h : extends h h.
Proof. by repeat split. Qed.

Lemma extends_trans h1 h2 h3 : extends h1 h2 -> extends h2 h3 -> extends h1 h3.
Proof.
  intros (A1 & B1 & C1) (A2 & B2 & C2). repeat split; [eauto..|congruence].
Qed.

Lemma registerCommandHandler_extends h (c handler : Class) :
  extends h (registerCommandHandler c handler h).1.
Proof.
  destruct (registerCommandHandler_cases h c handler)
    as [[_ [e ->]]|[Hfree ->]]; [apply extends_refl|].
  repeat split; simpl; [|done].
  intros n x Hn. rewrite lookup_insert_ne; [done|congruence].
Qed.

Lemma registerQueryHandler_extends h (c handler : Class) :
  extends h (registerQueryHandler c handler h).1.
Proof.
  destruct (registerQueryHandler_cases h c handler)
    as [[_ [e ->]]|[Hfree ->]]; [apply extends_refl|].
  repeat split; simpl; [done|].
  intros n x Hn. rewrite lookup_insert_ne; [done|congruence].
Qed.

Lemma registerPipelineBehavior_extends h (c : Class)
    (o : PipelineBehaviorOptions) :
  extends h (registerPipelineBehavior c o h).1.
Proof. rewrite registerPipelineBehavior_run. by repeat split. Qed.

Lemma registerProvider_steps wrapper (handlerType : Class) h :
  handlerTypeOf wrapper = Some handlerType ->
  registerProvider metadata wrapper h =
  (let* _ := commandStep metadata handlerType in
   let* _ := queryStep metadata handlerType in
   behaviorStep metadata handlerType) h.
Proof. intros Ht. unfold registerProvider. by rewrite Ht. Qed.

Lemma commandStep_extends (ht : Class) h : extends h (commandStep metadata ht h).1.
Proof.
  unfold commandStep. destruct (_ !! ht);
    [apply registerCommandHandler_extends|apply extends_refl].
Qed.

Lemma queryStep_extends (ht : Class) h : extends h (queryStep metadata ht h).1.
Proof.
  unfold queryStep. destruct (_ !! ht);
    [apply registerQueryHandler_extends|apply extends_refl].
Qed.

Lemma behaviorStep_extends (ht : Class) h : extends h (behaviorStep metadata ht h).1.
Proof.
  unfold behaviorStep. destruct (_ !! ht);
    [apply registerPipelineBehavior_extends|apply extends_refl].
Qed.

Lemma bind_extends {A B} (m : M (Heap W) A) (k : A -> M (Heap W) B) h :
  extends h (m h).1 ->
  (forall a h1, extends h1 (k a h1).1) ->
  extends h (bind m k h).1.
Proof.
  intros Hm Hk. unfold bind. destruct (m h) as [h1 [a|e]]; simpl in *.
  - eapply extends_trans; [exact Hm|apply Hk].
  - exact Hm.
Qed.

Lemma registerProvider_extends wrapper h :
  extends h (registerProvider metadata wrapper h).1.
Proof.
  destruct (handlerTypeOf wrapper) as [ht|] eqn:Ht.
  - rewrite (registerProvider_steps wrapper ht h Ht).
    apply bind_extends; [apply commandStep_extends|]. intros _ h1.
    apply bind_extends; [apply queryStep_extends|]. intros _ h2.
    apply behaviorStep_extends.
  - unfold registerProvider. rewrite Ht. apply extends_refl.
Qed.

Lemma onModuleInit_extends (providers : list InstanceWrapper) h :
  extends h (onModuleInit metadata providers h).1.
Proof.
  revert h. induction providers as [|wrapper providers IH]; intros h; simpl.
  - apply extends_refl.
  - apply bind_extends; [apply registerProvider_extends|]. intros _ h1. apply IH.
Qed.

(** A provider that returns has its handlers in the maps. *)
Lemma registerProvider_returns wrapper (ht : Class) h h1 :
  handlerTypeOf wrapper = Some ht ->
  registerProvider metadata wrapper h = (h1, Returned tt) ->
  (forall c, commandHandlerMetadata metadata !! ht = Some c ->
             commandHandlers (bus h) !! cname c = None
             /\ commandHandlers (bus h1) !! cname c = Some ht)
  /\ (forall q, queryHandlerMetadata metadata !! ht = Some q ->
                queryHandlers (bus h) !! cname q = None
                /\ queryHandlers (bus h1) !! cname q = Some ht).
Proof.
  intros Ht. rewrite (registerProvider_steps wrapper ht h Ht).
  unfold bind at 1.
  pose proof (commandStep_extends ht h) as Hc.
  destruct (commandStep metadata ht h) as [hc [[]|e]] eqn:Ec; [|discriminate].
  unfold bind at 1.
  pose proof (queryStep_extends ht hc) as Hq.
  destruct (queryStep metadata ht hc) as [hq [[]|e]] eqn:Eq; [|discriminate].
  pose proof (behaviorStep_extends ht hq) as Hb.
  intros Hrun. rewrite Hrun in Hb. simpl in *. split.
  - intros c Hmeta. unfold commandStep in Ec. rewrite Hmeta in Ec.
    destruct (registerCommandHandler_cases h c ht)
      as [[_ [e He]]|[Hfree Hok]]; [congruence|].
    split; [exact Hfree|]. rewrite Hok in Ec. injection Ec as <-.
    apply Hb, Hq. simpl. apply lookup_insert_eq.
  - intros q Hmeta. unfold queryStep in Eq. rewrite Hmeta in Eq.
    destruct (registerQueryHandler_cases hc q ht)
      as [[_ [e He]]|[Hfree Hok]]; [congruence|].
    split.
    + destruct (queryHandlers (bus h) !! cname q) as [x|] eqn:E; [|done].
      apply Hc in E. simpl in E. congruence.
    + rewrite Hok in Eq. injection Eq as <-.
      apply Hb. simpl. apply lookup_insert_eq.
Qed.

Lemma onModuleInit_returns (providers : list InstanceWrapper) h h' :
  onModuleInit metadata providers h = (h', Returned tt) ->
  forall wrapper ht,
    In wrapper providers -> handlerTypeOf wrapper = Some ht ->
    (forall c, commandHandlerMetadata metadata !! ht = Some c ->
               commandHandlers (bus h') !! cname c = Some ht)
    /\ (forall q, queryHandlerMetadata metadata !! ht = Some q ->
                  queryHandlers (bus h') !! cname q = Some ht).
Proof.
  revert h. induction providers as [|w0 providers IH]; intros h Hrun wrapper ht;
    [intros []|].
  simpl in Hrun. unfold bind in Hrun.
  destruct (registerProvider metadata w0 h) as [h1 [[]|e]] eqn:E0;
    [|discriminate].
  intros [<-|Hin] Ht.
  - destruct (registerProvider_returns w0 ht h h1 Ht E0) as [Hc Hq].
    pose proof (onModuleInit_extends providers h1) as Hext.
    rewrite Hrun in Hext. destruct Hext as (Hextc & Hextq & _). simpl in *.
    split.
    + intros c Hmeta. apply Hextc. by apply Hc.
    + intros q Hmeta. apply Hextq. by apply Hq.
  - exact (IH h1 Hrun wrapper ht Hin Ht).
Qed.

(** The behaviors after a run that returns. *)
Lemma registerProvider_behaviors wrapper h h1 :
  registerProvider metadata wrapper h = (h1, Returned tt) ->
  pipelineBehaviors (bus h1) =
  match declaredBehaviors metadata [wrapper] with
  | b :: _ => sortBy comparePriority (pipelineBehaviors (bus h) ++ [b])
  | [] => pipelineBehaviors (bus h)
  end.
Proof.
  unfold declaredBehaviors. simpl.
  destruct (handlerTypeOf wrapper) as [ht|] eqn:Ht.
  2: { unfold registerProvider. rewrite Ht. by intros [= <-]. }
  rewrite (registerProvider_steps wrapper ht h Ht). unfold bind.
  destruct (commandStep metadata ht h) as [hc [[]|e]] eqn:Ec; [|discriminate].
  destruct (queryStep metadata ht hc) as [hq [[]|e]] eqn:Eq; [|discriminate].
  assert (Hhc : pipelineBehaviors (bus hc) = pipelineBehaviors (bus h)).
  { unfold commandStep in Ec. destruct (_ !! ht) as [c|].
    - rewrite <- (registerCommandHandler_behaviors h c ht). by rewrite Ec.
    - by injection Ec as <-. }
  assert (Hhq : pipelineBehaviors (bus hq) = pipelineBehaviors (bus hc)).
  { unfold queryStep in Eq. destruct (_ !! ht) as [q|].
    - rewrite <- (registerQueryHandler_behaviors hc q ht). by rewrite Eq.
    - by injection Eq as <-. }
  unfold behaviorStep.
  destruct (pipelineBehaviorMetadata metadata !! ht) as [o|]; simpl.
  - rewrite registerPipelineBehavior_run. intros [= <-]. simpl.
    by rewrite Hhq, Hhc.
  - intros [= <-]. by rewrite Hhq, Hhc.
Qed.

Lemma declaredBehaviors_cons wrapper (providers : list InstanceWrapper) :
  declaredBehaviors metadata (wrapper :: providers) =
  declaredBehaviors metadata [wrapper] ++ declaredBehaviors metadata providers.
Proof.
  unfold declaredBehaviors. simpl.
  by destruct (handlerTypeOf wrapper) as [ht|];
    [destruct (pipelineBehaviorMetadata metadata !! ht)|].
Qed.

Lemma onModuleInit_behaviors (providers : list InstanceWrapper) h h'
    (l0 : list RegisteredBehavior) :
  onModuleInit metadata providers h = (h', Returned tt) ->
  pipelineBehaviors (bus h) = sortBy comparePriority l0 ->
  pipelineBehaviors (bus h') =
  sortBy comparePriority (l0 ++ declaredBehaviors metadata providers).
Proof.
  revert h l0. induction providers as [|w0 providers IH]; intros h l0 Hrun Hl0.
  - injection Hrun as <-. unfold declaredBehaviors. simpl.
    by rewrite app_nil_r.
  - simpl in Hrun. unfold bind in Hrun.
    destruct (registerProvider metadata w0 h) as [h1 [[]|e]] eqn:E0;
      [|discriminate].
    pose proof (registerProvider_behaviors w0 h h1 E0) as H1.
    rewrite (declaredBehaviors_cons w0 providers).
    destruct (declaredBehaviors metadata [w0]) as [|b [|b' bs]] eqn:Eb.
    + simpl. apply (IH h1 l0 Hrun). by rewrite H1.
    + rewrite (IH h1 (l0 ++ [b]) Hrun).
      * by rewrite <- app_assoc.
      * by rewrite H1, Hl0, sortBy_app_sortBy.
    + exfalso. unfold declaredBehaviors in Eb. simpl in Eb.
      by destruct (handlerTypeOf w0) as [ht|];
        [destruct (pipelineBehaviorMetadata metadata !! ht)|].
Qed.

(** A provider whose command name is taken makes the run throw. *)
Lemma onModuleInit_throws_when_taken (providers : list InstanceWrapper) h
    wrapper (ht c x : Class) :
  In wrapper providers ->
  handlerTypeOf wrapper = Some ht ->
  commandHandlerMetadata metadata !! ht = Some c ->
  commandHandlers (bus h) !! cname c = Some x ->
  exists h' e, onModuleInit metadata providers h = (h', Thrown e).
Proof.
  revert h. induction providers as [|w0 providers IH]; intros h Hin Ht Hmeta Hx;
    [destruct Hin|].
  simpl. unfold bind.
  pose proof (registerProvider_extends w0 h) as Hext.
  destruct (registerProvider metadata w0 h) as [h1 [[]|e]] eqn:E0;
    [|by eexists _, _].
  destruct Hin as [->|Hin].
  - destruct (registerProvider_returns wrapper ht h h1 Ht E0) as [Hc _].
    destruct (Hc c Hmeta) as [Hfree _]. congruence.
  - apply (IH h1 Hin Ht Hmeta). by apply Hext.
Qed.

Lemma onModuleInit_throws_when_query_taken (providers : list InstanceWrapper)
    h wrapper (ht q x : Class) :
  In wrapper providers ->
  handlerTypeOf wrapper = Some ht ->
  queryHandlerMetadata metadata !! ht = Some q ->
  queryHandlers (bus h) !! cname q = Some x ->
  exists h' e, onModuleInit metadata providers h = (h', Thrown e).
Proof.
  revert h. induction providers as [|w0 providers IH]; intros h Hin Ht Hmeta Hx;
    [destruct Hin|].
  simpl. unfold bind.
  pose proof (registerProvider_extends w0 h) as Hext.
  destruct (registerProvider metadata w0 h) as [h1 [[]|e]] eqn:E0;
    [|by eexists _, _].
  destruct Hin as [->|Hin].
  - destruct (registerProvider_returns wrapper ht h h1 Ht E0) as [_ Hq].
    destruct (Hq q Hmeta) as [Hfree _]. congruence.
  - apply (IH h1 Hin Ht Hmeta). by apply Hext.
Qed.
End OnModuleInitFacts.

(** X19. When [onModuleInit] returns on a new bus, every provider that
    has a class and an instance is registered under what its
    decorators declare: a class decorated as the handler of a command
    or of a query is the handler found for the name of that command or
    query, the list of behaviors is the sort of the decorated behavior
    classes taken in the order of the providers, and nothing else of
    the heap has changed. *)
Theorem onModuleInit_registers_providers :
  forall (W : Type) (metadata : NestMediatorModule.Metadata)
         (providers : list NestMediatorModule.InstanceWrapper)
         (w : W) (h' : Heap W),
    NestMediatorModule.onModuleInit metadata providers
      (mkHeap newMediatorBus w) = (h', Returned tt) ->
    (forall wrapper handlerType,
        In wrapper providers ->
        NestMediatorModule.handlerTypeOf wrapper = Some handlerType ->
        (forall c,
            NestMediatorModule.commandHandlerMetadata metadata !! handlerType
              = Some c ->
            commandHandlers (bus h') !! cname c = Some handlerType)
        /\ (forall q,
              NestMediatorModule.queryHandlerMetadata metadata !! handlerType
                = Some q ->
              queryHandlers (bus h') !! cname q = Some handlerType))
    /\ pipelineBehaviors (bus h') =
       sortBy comparePriority
              (NestMediatorModule.declaredBehaviors metadata providers)
    /\ world h' = w.
Proof.
  intros W metadata providers w h' Hrun. split; [|split].
  - by apply (onModuleInit_returns metadata providers
                (mkHeap newMediatorBus w) h').
  - by apply (onModuleInit_behaviors metadata providers
                (mkHeap newMediatorBus w) h' [] Hrun).
  - pose proof (onModuleInit_extends metadata providers
                  (mkHeap newMediatorBus w)) as Hext.
    rewrite Hrun in Hext. by destruct Hext as (_ & _ & Hworld).
Qed.

Lemma onModuleInit_registers_providers_witness :
  commandHandlers
    (bus (NestMediatorModule.onModuleInit ExampleApp.metadata
            ExampleApp.providers (mkHeap newMediatorBus ([] : list Event))).1)
    !! "CreateUserCommand" = Some ExampleApp.CreateUserHandler
  /\ pipelineBehaviors
       (bus (NestMediatorModule.onModuleInit ExampleApp.metadata
               ExampleApp.providers (mkHeap newMediatorBus ([] : list Event))).1)
     = [ mkRegistered ExampleApp.CachingBehavior
           {| priority := Some 5; scope := Some ScopeQuery |};
         mkRegistered ExampleApp.AuditLoggingBehavior
           {| priority := Some 50; scope := Some ScopeCommand |} ].
Proof.
  destruct (onModuleInit_registers_providers (list Event) ExampleApp.metadata
              ExampleApp.providers []
              (NestMediatorModule.onModuleInit ExampleApp.metadata
                 ExampleApp.providers (mkHeap newMediatorBus [])).1)
    as (Hhandlers & Hlist & _).
  { vm_compute. reflexivity. }
  split.
  - refine (proj1 (Hhandlers (ExampleApp.provider ExampleApp.CreateUserHandler)
                             ExampleApp.CreateUserHandler _ eq_refl)
                  ExampleApp.CreateUserCommand _).
    + simpl. tauto.
    + vm_compute. reflexivity.
  - rewrite Hlist. vm_compute. reflexivity.
Defined.

(** X20. Two providers that are decorated as handlers of commands of
    the same name, or of queries of the same name, make [onModuleInit]
    throw, whatever stands between them and whatever the heap was:
    startup does not get past a duplicate handler. *)
Theorem onModuleInit_duplicate_aborts :
  forall (W : Type) (metadata : NestMediatorModule.Metadata) (h : Heap W)
         (l1 l2 l3 : list NestMediatorModule.InstanceWrapper)
         (w1 w2 : NestMediatorModule.InstanceWrapper)
         (ht1 ht2 c1 c2 : Class),
    NestMediatorModule.handlerTypeOf w1 = Some ht1 ->
    NestMediatorModule.handlerTypeOf w2 = Some ht2 ->
    cname c1 = cname c2 ->
    (NestMediatorModule.commandHandlerMetadata metadata !! ht1 = Some c1 ->
     NestMediatorModule.commandHandlerMetadata metadata !! ht2 = Some c2 ->
     exists h' e,
       NestMediatorModule.onModuleInit metadata
         (l1 ++ w1 :: l2 ++ w2 :: l3) h = (h', Thrown e))
    /\ (NestMediatorModule.queryHandlerMetadata metadata !! ht1 = Some c1 ->
        NestMediatorModule.queryHandlerMetadata metadata !! ht2 = Some c2 ->
        exists h' e,
          NestMediatorModule.onModuleInit metadata
            (l1 ++ w1 :: l2 ++ w2 :: l3) h = (h', Thrown e)).
Proof.
  intros W metadata h l1 l2 l3 w1 w2 ht1 ht2 c1 c2 Ht1 Ht2 Hname. split.
  - intros Hm1 Hm2. revert h.
    induction l1 as [|w0 l1 IH]; intros h; simpl; unfold bind.
    + destruct (NestMediatorModule.registerProvider metadata w1 h)
        as [h1 [[]|e]] eqn:E1; [|by eexists _, _].
      destruct (registerProvider_returns metadata w1 ht1 h h1 Ht1 E1)
        as [Hc _].
      destruct (Hc c1 Hm1) as [_ Hthere].
      apply (onModuleInit_throws_when_taken metadata (l2 ++ w2 :: l3) h1
               w2 ht2 c2 ht1); [|exact Ht2|exact Hm2|by rewrite <- Hname].
      apply in_or_app. right. by left.
    + destruct (NestMediatorModule.registerProvider metadata w0 h)
        as [h1 [[]|e]]; [apply IH|by eexists _, _].
  - intros Hm1 Hm2. revert h.
    induction l1 as [|w0 l1 IH]; intros h; simpl; unfold bind.
    + destruct (NestMediatorModule.registerProvider metadata w1 h)
        as [h1 [[]|e]] eqn:E1; [|by eexists _, _].
      destruct (registerProvider_returns metadata w1 ht1 h h1 Ht1 E1)
        as [_ Hq].
      destruct (Hq c1 Hm1) as [_ Hthere].
      apply (onModuleInit_throws_when_query_taken metadata (l2 ++ w2 :: l3) h1
               w2 ht2 c2 ht1); [|exact Ht2|exact Hm2|by rewrite <- Hname].
      apply in_or_app. right. by left.
    + destruct (NestMediatorModule.registerProvider metadata w0 h)
        as [h1 [[]|e]]; [apply IH|by eexists _, _].
Qed.

Lemma onModuleInit_duplicate_aborts_witness :
  exists (h' : Heap (list Event)) (e : Exception),
    NestMediatorModule.onModuleInit ExampleApp.metadata
      ([ExampleApp.provider ExampleApp.AppService]
         ++ ExampleApp.provider ExampleApp.CreateUserHandler
         :: [ExampleApp.provider ExampleApp.GetUserHandler]
         ++ ExampleApp.provider ExampleApp.ImportUserHandler :: [])
      (mkHeap newMediatorBus []) = (h', Thrown e).
Proof.
  apply (proj1 (onModuleInit_duplicate_aborts (list Event) ExampleApp.metadata
                  (mkHeap newMediatorBus [])
                  [ExampleApp.provider ExampleApp.AppService]
                  [ExampleApp.provider ExampleApp.GetUserHandler] []
                  (ExampleApp.provider ExampleApp.CreateUserHandler)
                  (ExampleApp.provider ExampleApp.ImportUserHandler)
                  ExampleApp.CreateUserHandler ExampleApp.ImportUserHandler
                  ExampleApp.CreateUserCommand ExampleApp.CreateUserCommand
                  eq_refl eq_refl eq_refl)).
  - vm_compute. reflexivity.
  - vm_compute. reflexivity.
Defined.

(** X21. The defaults of the decorator and those of the bus agree:
    registering a behavior with the options that [@PipelineBehavior]
    stores (the defaults filled in) gives it the same priority and
    makes it applicable to the same dispatches as registering it with
    the options as written; without options a behavior has priority 0
    and is applicable in both namespaces unless skipped. *)
Theorem decorator_defaults_agree :
  forall (W : Type) (env : Env W) (request : Request) (k : RequestKind)
         (c : Class) (o : PipelineBehaviorOptions),
    priorityOf (mkRegistered c (NestMediatorModule.mergeOptions (Some o))) =
    priorityOf (mkRegistered c o)
    /\ isApplicable env request k
         (mkRegistered c (NestMediatorModule.mergeOptions (Some o))) =
       isApplicable env request k (mkRegistered c o)
    /\ priorityOf (mkRegistered c (NestMediatorModule.mergeOptions None)) = 0
    /\ isApplicable env request k
         (mkRegistered c (NestMediatorModule.mergeOptions None)) =
       negb (existsb (fun skipType => bool_decide (skipType = c))
                     (behaviorsToSkip env request)).
Proof.
  intros W env request k c [p s]. unfold priorityOf, isApplicable. simpl.
  refine (conj _ (conj _ (conj eq_refl eq_refl))).
  - by destruct p.
  - by destruct s.
Qed.

(** * The caching behavior *)

(** X22. A cache hit answers without the handler: when the cache holds
    an entry for the key of the request that expires later than now,
    [handle] returns the stored data, whatever the continuation is, and
    leaves the heap as it is.  An entry that expires now or earlier is
    not used: the outcome is the one of the continuation. *)
Theorem cache_hit_skips_handler :
  forall (St : Type) (getCache : St -> gmap string CachingBehavior.CacheEntry)
         (setCache : gmap string CachingBehavior.CacheEntry -> St -> St)
         (now : St -> Z) (stringify : JsValue -> string)
         (request : JsValue) (next : M St JsValue) (s : St)
         (cached : CachingBehavior.CacheEntry),
    getCache s !! CachingBehavior.generateCacheKey stringify request
      = Some cached ->
    (CachingBehavior.expiry cached > now s ->
     CachingBehavior.handle getCache setCache now stringify request next s =
     (s, Returned (CachingBehavior.data cached)))
    /\ (CachingBehavior.expiry cached <= now s ->
        (CachingBehavior.handle getCache setCache now stringify request next s).2
        = (next s).2).
Proof.
  intros St getCache setCache now stringify request next s cached Hcached.
  unfold CachingBehavior.handle. rewrite Hcached. split.
  - intros Hlive.
    by destruct (Z.gtb_spec (CachingBehavior.expiry cached) (now s)); [|lia].
  - intros Hdead.
    destruct (Z.gtb_spec (CachingBehavior.expiry cached) (now s)); [lia|].
    by destruct (next s) as [s1 [v|e]].
Qed.

Lemma cache_hit_skips_handler_witness :
  CachingBehavior.handle CachingExample.cache CachingExample.setCache
    CachingExample.clock CachingExample.stringify CachingExample.getUser
    CachingExample.slowNext CachingExample.warm =
  (CachingExample.warm, Returned (JStr "Jane")).
Proof.
  apply (proj1 (cache_hit_skips_handler CachingExample.World
                  CachingExample.cache CachingExample.setCache
                  CachingExample.clock CachingExample.stringify
                  CachingExample.getUser CachingExample.slowNext
                  CachingExample.warm
                  {| CachingBehavior.data := JStr "Jane";
                     CachingBehavior.expiry := 2000 |}
                  ltac:(vm_compute; reflexivity))).
  simpl. lia.
Defined.

(** X23. A miss stores the result for thirty seconds: when the cache
    has no live entry for the request and the continuation returns
    [v], [handle] returns [v] and the cache then holds [v] for the key
    of the request until thirty seconds after the continuation
    returned; while that entry is in the cache and the clock is before
    that time, the same request is answered with [v] without calling
    its continuation.  When the continuation throws, nothing is stored
    and the error is thrown on.  After [clearCache] every request
    calls its continuation. *)
Theorem cache_miss_stores_result :
  forall (St : Type) (getCache : St -> gmap string CachingBehavior.CacheEntry)
         (setCache : gmap string CachingBehavior.CacheEntry -> St -> St)
         (now : St -> Z) (stringify : JsValue -> string)
         (request : JsValue) (next : M St JsValue) (s s1 : St),
    (forall c s0, getCache (setCache c s0) = c) ->
    let key := CachingBehavior.generateCacheKey stringify request in
    let handle := CachingBehavior.handle getCache setCache now stringify in
    (forall cached, getCache s !! key = Some cached ->
                    CachingBehavior.expiry cached <= now s) ->
    (forall v,
        next s = (s1, Returned v) ->
        (handle request next s).2 = Returned v
        /\ getCache (handle request next s).1 !! key =
           Some {| CachingBehavior.data := v;
                   CachingBehavior.expiry :=
                     now s1 + CachingBehavior.defaultTtlMs |}
        /\ forall (s3 : St) (next' : M St JsValue),
             getCache s3 !! key = getCache (handle request next s).1 !! key ->
             now s3 < now s1 + 30000 ->
             handle request next' s3 = (s3, Returned v))
    /\ (forall e, next s = (s1, Thrown e) ->
                  handle request next s = (s1, Thrown e))
    /\ (forall s0 : St,
          (handle request next
             (CachingBehavior.clearCache setCache s0)).2 =
          (next (CachingBehavior.clearCache setCache s0)).2).
Proof.
  intros St getCache setCache now stringify request next s s1 Hlens key handle
         Hdead.
  assert (Hmiss : forall s0,
             (forall cached, getCache s0 !! key = Some cached ->
                             CachingBehavior.expiry cached <= now s0) ->
             handle request next s0 =
             match next s0 with
             | (s', Returned result) =>
                 (setCache
                    (<[key := {| CachingBehavior.data := result;
                                 CachingBehavior.expiry :=
                                   now s' + CachingBehavior.defaultTtlMs |}]>
                       (getCache s'))
                    s',
                  Returned result)
             | (s', Thrown e) => (s', Thrown e)
             end).
  { intros s0 Hs0. subst handle. unfold CachingBehavior.handle. fold key.
    destruct (getCache s0 !! key) as [cached|] eqn:E; [|reflexivity].
    specialize (Hs0 cached eq_refl).
    by destruct (Z.gtb_spec (CachingBehavior.expiry cached) (now s0)); [lia|]. }
  refine (conj _ (conj _ _)).
  - intros v Hnext. rewrite (Hmiss s Hdead), Hnext. simpl.
    rewrite Hlens, lookup_insert_eq. split; [reflexivity|].
    split; [reflexivity|].
    intros s3 next' Hsame Hnow. subst handle.
    unfold CachingBehavior.handle. fold key. rewrite Hsame. simpl.
    destruct (Z.gtb_spec (now s1 + CachingBehavior.defaultTtlMs) (now s3));
      [reflexivity|].
    unfold CachingBehavior.defaultTtlMs in *. lia.
  - intros e Hnext. by rewrite (Hmiss s Hdead), Hnext.
  - intros s0. rewrite Hmiss.
    + by destruct (next _) as [s' [v|e]].
    + intros cached. unfold CachingBehavior.clearCache.
      by rewrite Hlens, lookup_empty.
Qed.

Lemma cache_miss_stores_result_witness :
  CachingBehavior.handle CachingExample.cache CachingExample.setCache
    CachingExample.clock CachingExample.stringify CachingExample.getUser
    (throw (Error "must not be called"))
    (CachingBehavior.handle CachingExample.cache CachingExample.setCache
       CachingExample.clock CachingExample.stringify CachingExample.getUser
       CachingExample.slowNext CachingExample.start).1 =
  ((CachingBehavior.handle CachingExample.cache CachingExample.setCache
      CachingExample.clock CachingExample.stringify CachingExample.getUser
      CachingExample.slowNext CachingExample.start).1,
   Returned (JStr "John Doe")).
Proof.
  destruct (cache_miss_stores_result CachingExample.World
              CachingExample.cache CachingExample.setCache
              CachingExample.clock CachingExample.stringify
              CachingExample.getUser CachingExample.slowNext
              CachingExample.start
              {| CachingExample.cache := ∅;
                 CachingExample.clock := 1010;
                 CachingExample.calls := 1 |})
    as [Hstore _].
  - intros c s0. reflexivity.
  - intros cached Hcached. vm_compute in Hcached. discriminate.
  - destruct (Hstore (JStr "John Doe")) as (_ & _ & Hhit).
    + vm_compute. reflexivity.
    + apply Hhit; [reflexivity|]. vm_compute. reflexivity.
Defined.

(** * The retry behavior *)

(** X24. The retry behavior gives up after three attempts: with a
    continuation that always throws the retryable error [e], the
    continuation is run three times, with a wait of 100 ms after the
    first failure and of 200 ms after the second and none after the
    third, and [e] is thrown. *)
Theorem retry_gives_up_after_three :
  forall (St : Type) (sleep : Z -> St -> St) (request : JsValue)
         (f : St -> St) (e : Exception) (s : St),
    RetryBehavior.isNonRetryableError e = false ->
    RetryBehavior.handle sleep request (fun s0 => (f s0, Thrown e)) s =
    (f (sleep 200 (f (sleep 100 (f s)))), Thrown e).
Proof.
  intros St sleep request f e s Hretry.
  unfold RetryBehavior.handle. simpl. by rewrite Hretry.
Qed.

Lemma retry_gives_up_after_three_witness :
  RetryBehavior.handle (fun ms log => log ++ [ms]) JNull
    (fun log => (log ++ [0], Thrown (Error "boom"))) [] =
  ([0; 100; 0; 200; 0], Thrown (Error "boom")).
Proof.
  apply (retry_gives_up_after_three (list Z) (fun ms log => log ++ [ms]) JNull
           (fun log => log ++ [0]) (Error "boom") []).
  reflexivity.
Defined.





Section RetrySteps.
Context {St : Type} (sleep : Z -> St -> St).

Lemma attemptFrom_returned (attempt more : nat) (next : M St JsValue)
    (s s1 : St) (v : JsValue) :
  next s = (s1, Returned v) ->
  RetryBehavior.attemptFrom sleep attempt more next s = (s1, Returned v).
Proof. intros Hnext. destruct more; simpl; by rewrite Hnext. Qed.

Lemma attemptFrom_retry (attempt more : nat) (next : M St JsValue)
    (s s1 : St) (e : Exception) :
  next s = (s1, Thrown e) ->
  RetryBehavior.isNonRetryableError e = false ->
  RetryBehavior.attemptFrom sleep attempt (S more) next s =
  RetryBehavior.attemptFrom sleep (S attempt) more next
    (sleep (RetryBehavior.calculateDelay attempt) s1).
Proof. intros Hnext Hretry. simpl. by rewrite Hnext, Hretry. Qed.

Lemma attemptFrom_last (attempt : nat) (next : M St JsValue)
    (s s1 : St) (e : Exception) :
  next s = (s1, Thrown e) ->
  RetryBehavior.attemptFrom sleep attempt 0 next s = (s1, Thrown e).
Proof.
  intros Hnext. simpl. rewrite Hnext.
  by destruct (RetryBehavior.isNonRetryableError e).
Qed.
End RetrySteps.

Lemma sleep_record (ms : Z) (t : gmap string Z) (waits : list Z) :
  PaymentExample.sleep ms
    {| PaymentExample.tracker := t; PaymentExample.slept := waits |} =
  {| PaymentExample.tracker := t; PaymentExample.slept := waits ++ [ms] |}.
Proof. reflexivity. Qed.

Ltac after_wait :=
  change (0 + 1) with 1; change (1 + 1) with 2; change (2 + 1) with 3;
  change (RetryBehavior.calculateDelay 1) with 100;
  change (RetryBehavior.calculateDelay 2) with 200;
  rewrite sleep_record.

Lemma payment_attempt_fails (command : ProcessPaymentHandler.ProcessPaymentCommand)
    (t : gmap string Z) (waits : list Z) (failures : Z) :
  ProcessPaymentHandler.simulateFailure command = true ->
  default 0 (t !! ProcessPaymentHandler.orderId command) = failures ->
  failures < ProcessPaymentHandler.failCount command ->
  ProcessPaymentHandler.execute PaymentExample.tracker
    PaymentExample.setTracker PaymentExample.sleep command
    {| PaymentExample.tracker := t; PaymentExample.slept := waits |} =
  ({| PaymentExample.tracker :=
        <[ProcessPaymentHandler.orderId command := failures + 1]> t;
      PaymentExample.slept := waits |},
   Thrown (Error ("Payment gateway temporarily unavailable (attempt "
                    +:+ pretty (failures + 1) +:+ ")"))).
Proof.
  intros Hsim Hcount Hless. unfold ProcessPaymentHandler.execute.
  rewrite Hsim. cbn [PaymentExample.tracker]. rewrite Hcount.
  by destruct (Z.ltb_spec failures (ProcessPaymentHandler.failCount command));
    [|lia].
Qed.

Lemma payment_attempt_succeeds
    (command : ProcessPaymentHandler.ProcessPaymentCommand)
    (t : gmap string Z) (waits : list Z) (failures : Z) :
  ProcessPaymentHandler.simulateFailure command = true ->
  default 0 (t !! ProcessPaymentHandler.orderId command) = failures ->
  ProcessPaymentHandler.failCount command <= failures ->
  ProcessPaymentHandler.execute PaymentExample.tracker
    PaymentExample.setTracker PaymentExample.sleep command
    {| PaymentExample.tracker := t; PaymentExample.slept := waits |} =
  ({| PaymentExample.tracker :=
        delete (ProcessPaymentHandler.orderId command) t;
      PaymentExample.slept := waits ++ [100] |},
   Returned JUndefined).
Proof.
  intros Hsim Hcount Hless. unfold ProcessPaymentHandler.execute.
  rewrite Hsim. cbn [PaymentExample.tracker]. rewrite Hcount.
  by destruct (Z.ltb_spec failures (ProcessPaymentHandler.failCount command));
    [lia|].
Qed.

(** X26. The payment handler under the retry behavior.  For an order
    with no failures recorded and a command that simulates [failCount]
    failures: with at most two failures to simulate the payment goes
    through, after one wait per failure, and the tracker no longer
    holds the order; with three or more the third attempt fails too,
    its error is thrown, and the tracker keeps the three failures of
    the order, which a later payment of that order starts from. *)
Theorem retry_rescues_payment :
  forall (order : string) (amount_ failCount_ : Z) (t : gmap string Z)
         (waits : list Z),
    t !! order = None ->
    let command :=
      {| ProcessPaymentHandler.orderId := order;
         ProcessPaymentHandler.amount := amount_;
         ProcessPaymentHandler.simulateFailure := true;
         ProcessPaymentHandler.failCount := failCount_ |} in
    let s := {| PaymentExample.tracker := t; PaymentExample.slept := waits |} in
    (failCount_ <= 0 ->
     PaymentExample.pay command s =
     ({| PaymentExample.tracker := t;
         PaymentExample.slept := waits ++ [100] |},
      Returned JUndefined))
    /\ (failCount_ = 1 ->
        PaymentExample.pay command s =
        ({| PaymentExample.tracker := t;
            PaymentExample.slept := waits ++ [100; 100] |},
         Returned JUndefined))
    /\ (failCount_ = 2 ->
        PaymentExample.pay command s =
        ({| PaymentExample.tracker := t;
            PaymentExample.slept := waits ++ [100; 200; 100] |},
         Returned JUndefined))
    /\ (3 <= failCount_ ->
        PaymentExample.pay command s =
        ({| PaymentExample.tracker := <[order := 3]> t;
            PaymentExample.slept := waits ++ [100; 200] |},
         Thrown (Error "Payment gateway temporarily unavailable (attempt 3)"))).
Proof.
  intros order amount_ failCount_ t waits Hfresh command s.
  unfold PaymentExample.pay, RetryBehavior.handle.
  change (RetryBehavior.maxRetries - 1)%nat with 2%nat.
  set (next := ProcessPaymentHandler.execute PaymentExample.tracker
                 PaymentExample.setTracker PaymentExample.sleep command).
  assert (Hdel : forall v, delete order (<[order := v]> t) = t).
  { intros v. rewrite delete_insert_eq. by apply delete_id. }
  assert (H0 : default 0 (t !! order) = 0) by (by rewrite Hfresh).
  assert (Hv : forall (v : Z) (t' : gmap string Z),
             default 0 (<[order := v]> t' !! order) = v).
  { intros v t'. by rewrite lookup_insert_eq. }
  assert (Hfail : forall t' waits' failures,
             default 0 (t' !! order) = failures -> failures < failCount_ ->
             next {| PaymentExample.tracker := t';
                     PaymentExample.slept := waits' |} =
             ({| PaymentExample.tracker := <[order := failures + 1]> t';
                 PaymentExample.slept := waits' |},
              Thrown (Error ("Payment gateway temporarily unavailable (attempt "
                               +:+ pretty (failures + 1) +:+ ")")))).
  { intros t' waits' failures Hc Hl.
    by apply (payment_attempt_fails command t' waits' failures). }
  assert (Hok : forall t' waits' failures,
             default 0 (t' !! order) = failures -> failCount_ <= failures ->
             next {| PaymentExample.tracker := t';
                     PaymentExample.slept := waits' |} =
             ({| PaymentExample.tracker := delete order t';
                 PaymentExample.slept := waits' ++ [100] |},
              Returned JUndefined)).
  { intros t' waits' failures Hc Hl.
    by apply (payment_attempt_succeeds command t' waits' failures). }
  refine (conj _ (conj _ (conj _ _))).
  - intros Hk. subst s.
    rewrite (attemptFrom_returned _ _ _ _ _ _ _ (Hok t waits 0 H0 Hk)).
    by rewrite delete_id.
  - intros Hk. subst s.
    rewrite (attemptFrom_retry _ _ _ _ _ _ _
               (Hfail t waits 0 H0 ltac:(lia)) eq_refl).
    after_wait.
    rewrite (attemptFrom_returned _ _ _ _ _ _ _
               (Hok _ _ 1 (Hv _ _) ltac:(lia))).
    by rewrite Hdel, <- app_assoc.
  - intros Hk. subst s.
    rewrite (attemptFrom_retry _ _ _ _ _ _ _
               (Hfail t waits 0 H0 ltac:(lia)) eq_refl).
    after_wait.
    rewrite (attemptFrom_retry _ _ _ _ _ _ _
               (Hfail _ _ 1 (Hv _ _) ltac:(lia)) eq_refl).
    after_wait.
    rewrite (attemptFrom_returned _ _ _ _ _ _ _
               (Hok _ _ 2 (Hv _ _) ltac:(lia))).
    by rewrite insert_insert_eq, Hdel, <- !app_assoc.
  - intros Hk. subst s.
    rewrite (attemptFrom_retry _ _ _ _ _ _ _
               (Hfail t waits 0 H0 ltac:(lia)) eq_refl).
    after_wait.
    rewrite (attemptFrom_retry _ _ _ _ _ _ _
               (Hfail _ _ 1 (Hv _ _) ltac:(lia)) eq_refl).
    after_wait.
    rewrite (attemptFrom_last _ _ _ _ _ _
               (Hfail _ _ 2 (Hv _ _) ltac:(lia))).
    by rewrite !insert_insert_eq, <- !app_assoc.
Qed.

Lemma retry_rescues_payment_witness :
  PaymentExample.pay
    {| ProcessPaymentHandler.orderId := "order-retry-test";
       ProcessPaymentHandler.amount := 50;
       ProcessPaymentHandler.simulateFailure := true;
       ProcessPaymentHandler.failCount := 2 |}
    {| PaymentExample.tracker := ∅; PaymentExample.slept := [] |} =
  ({| PaymentExample.tracker := ∅;
      PaymentExample.slept := [] ++ [100; 200; 100] |},
   Returned JUndefined).
Proof.
  apply (retry_rescues_payment "order-retry-test" 50 2 ∅ []).
  - apply lookup_empty.
  - reflexivity.
Defined.

(** * The audit behavior *)




